(** * The ClinVar pipeline driver [master.py]

    A shallow embedding of the driver script and of the job-runner
    interface it is written against, followed by the properties of the
    freshness check, of the start-up validation and of the pipeline the
    driver assembles.

    The script is Python 2 (it mixes tabs and spaces, uses [distutils]
    and [strftime("%s")]); it is read with the default interpreter
    settings, so [assert] statements are executed. *)

From Stdlib Require Import String Ascii List ZArith QArith Bool Lia.
Import ListNotations.

Local Open Scope list_scope.
Local Open Scope string_scope.

(* ================================================================== *)
(** * Python values used by the script *)
(* ================================================================== *)

Module Py.

(** The exceptions that can travel through the script.  All of them are
    subclasses of [Exception]; [SystemExit] is kept apart (see
    [result] below) because [except Exception] does not catch it. *)
Inductive exception : Type :=
| ImportError (name : string)
| AssertionError (msg : string)
| ValueError (msg : string)
| UnsupportedFormatCharacter (c : ascii) (index : nat)
| TypeError (msg : string)
| KeyError (key : string)
| OSError (path : string)
| NetworkError (msg : string)
| CommandError (command : string) (what : string)
| Unmodelled (what : string).

(** [str(e)] *)
Definition str_exception (e : exception) : string :=
  match e with
  | ImportError name => "No module named " ++ name
  | AssertionError msg => msg
  | ValueError msg => msg
  | UnsupportedFormatCharacter c _ =>
      "unsupported format character '" ++ String c "'"
  | TypeError msg => msg
  | KeyError key => "'" ++ key ++ "'"
  | OSError path => "[Errno 2] No such file or directory: '" ++ path ++ "'"
  | NetworkError msg => msg
  | CommandError command what => what ++ ": " ++ command
  | Unmodelled what => what
  end.

(** An optional command-line argument as the tests [if args.x:] see
    it: [None] and the empty string are false. *)
Definition supplied (o : option string) : option string :=
  match o with
  | Some s => if s =? EmptyString then None else Some s
  | None => None
  end.

Definition truthy (o : option string) : bool :=
  match supplied o with
  | Some _ => true
  | None => false
  end.

End Py.

(* ================================================================== *)
(** * String operations *)
(* ================================================================== *)

Module PyStr.

Definition dquote : string := String (ascii_of_nat 34) EmptyString.
Definition newline : string := String (ascii_of_nat 10) EmptyString.

(** [s[n:]] *)
Fixpoint drop (n : nat) (s : string) : string :=
  match n, s with
  | O, _ => s
  | S _, EmptyString => EmptyString
  | S n', String _ s' => drop n' s'
  end.

(** [s.startswith(p)] *)
Definition startswith (s p : string) : bool := String.prefix p s.

(** [s.endswith(suffix)] *)
Definition endswith (s suffix : string) : bool :=
  (String.length suffix <=? String.length s)%nat
  && (drop (String.length s - String.length suffix) s =? suffix).

Definition is_slash (c : ascii) : bool := Ascii.eqb c "/"%char.

Fixpoint has_slash (s : string) : bool :=
  match s with
  | EmptyString => false
  | String c s' => is_slash c || has_slash s'
  end.

(** [os.path.basename(p)]: what follows the last slash. *)
Fixpoint basename (p : string) : string :=
  match p with
  | EmptyString => EmptyString
  | String c p' =>
      if has_slash p' then basename p'
      else if is_slash c then p' else p
  end.

(** [s.split(sep)[0]]: what precedes the first occurrence of [sep]
    (the whole of [s] when there is none). *)
Fixpoint before_first (sep s : string) : string :=
  match s with
  | EmptyString => EmptyString
  | String c s' =>
      if String.prefix sep s then EmptyString
      else String c (before_first sep s')
  end.

(** [os.path.join(a, b)] of [posixpath]. *)
Definition path_join (a b : string) : string :=
  if startswith b "/" then b
  else if (a =? EmptyString) || endswith a "/" then a ++ b
  else a ++ "/" ++ b.

(** Python's white space for [str.split()]: space, \t, \n, \v, \f, \r. *)
Definition is_space (c : ascii) : bool :=
  let n := nat_of_ascii c in
  (n =? 32)%nat || ((9 <=? n)%nat && (n <=? 13)%nat).

Definition flush (acc : list ascii) : list string :=
  match acc with
  | [] => []
  | _ :: _ => [string_of_list_ascii (rev acc)]
  end.

(** [acc] holds, most recent first, the characters of the word being
    read. *)
Fixpoint split_go (acc : list ascii) (s : string) : list string :=
  match s with
  | EmptyString => flush acc
  | String c s' =>
      if is_space c then (flush acc ++ split_go [] s')%list
      else split_go (c :: acc) s'
  end.

(** [s.split()] *)
Definition split (s : string) : list string := split_go [] s.

(** [s.split(sep)] for a separator of one character: the pieces
    between the separators, empty ones included. *)
Fixpoint split_on (sep : ascii) (s : string) : list string :=
  match s with
  | EmptyString => [EmptyString]
  | String c s' =>
      if Ascii.eqb c sep then EmptyString :: split_on sep s'
      else match split_on sep s' with
           | piece :: pieces => String c piece :: pieces
           | [] => [String c EmptyString]
           end
  end.

(** ** The [%] operator on strings

    The right operand is a tuple of already converted strings or a
    mapping.  The conversions the script uses are [%s], [%%] and
    [%(key)s].  As in CPython the argument of a conversion is taken
    before the conversion character is looked at, and a character
    after [%] that is no flag, width, precision, length modifier or
    conversion raises [ValueError]; the remaining conversions are
    outside this development. *)

Inductive fmt_args : Type :=
| Positional (l : list string)
| Mapping (d : list (string * string)).

Inductive fmt_mode : Type :=
| Lit
| Pct
| Key (k : list ascii)
| Keyed (v : string).

Definition spec_chars : string := "#0- +123456789*.hlLdiouxXeEfFgGcrs%(".

Fixpoint mem_char (c : ascii) (s : string) : bool :=
  match s with
  | EmptyString => false
  | String d s' => Ascii.eqb c d || mem_char c s'
  end.

Fixpoint lookup (k : string) (d : list (string * string)) : option string :=
  match d with
  | [] => None
  | (k', v) :: d' => if k =? k' then Some v else lookup k d'
  end.

Definition push (c : ascii) (r : Py.exception + string) : Py.exception + string :=
  match r with
  | inr s => inr (String c s)
  | inl e => inl e
  end.

Definition prepend (a : string) (r : Py.exception + string) : Py.exception + string :=
  match r with
  | inr s => inr (a ++ s)
  | inl e => inl e
  end.

(** A character other than [s] and [%] in the place of the
    conversion, once its argument has been taken. *)
Definition other_conversion (c : ascii) (index : nat) : Py.exception + string :=
  if mem_char c spec_chars
  then inl (Py.Unmodelled "format conversion")
  else inl (Py.UnsupportedFormatCharacter c index).

(** [Lit]: in literal text; [Pct]: just after [%]; [Key k]: inside
    [%(...)], [k] the characters read so far, most recent first;
    [Keyed v]: after [%(key)], [v] the value found under the key.
    [index] is the position of the next character. *)
Fixpoint format_go (mode : fmt_mode) (index : nat) (args : fmt_args)
         (fmt : string) : Py.exception + string :=
  match fmt with
  | EmptyString =>
      match mode with
      | Lit =>
          match args with
          | Positional (_ :: _) =>
              inl (Py.TypeError "not all arguments converted during string formatting")
          | _ => inr EmptyString
          end
      | Pct | Keyed _ => inl (Py.ValueError "incomplete format")
      | Key _ => inl (Py.ValueError "incomplete format key")
      end
  | String c rest =>
      match mode with
      | Lit =>
          if Ascii.eqb c "%"%char then format_go Pct (S index) args rest
          else push c (format_go Lit (S index) args rest)
      | Pct =>
          if Ascii.eqb c "%"%char then
            push c (format_go Lit (S index) args rest)
          else if Ascii.eqb c "("%char then
            match args with
            | Mapping _ => format_go (Key []) (S index) args rest
            | Positional _ => inl (Py.TypeError "format requires a mapping")
            end
          else
            match args with
            | Positional [] =>
                inl (Py.TypeError "not enough arguments for format string")
            | Positional (a :: l) =>
                if Ascii.eqb c "s"%char
                then prepend a (format_go Lit (S index) (Positional l) rest)
                else other_conversion c index
            | Mapping _ =>
                if Ascii.eqb c "s"%char
                then inl (Py.Unmodelled "str of a mapping")
                else other_conversion c index
            end
      | Key k =>
          if Ascii.eqb c ")"%char then
            let key := string_of_list_ascii (rev k) in
            match args with
            | Mapping d =>
                match lookup key d with
                | Some v => format_go (Keyed v) (S index) args rest
                | None => inl (Py.KeyError key)
                end
            | Positional _ => inl (Py.TypeError "format requires a mapping")
            end
          else format_go (Key (c :: k)) (S index) args rest
      | Keyed v =>
          if Ascii.eqb c "s"%char
          then prepend v (format_go Lit (S index) args rest)
          else other_conversion c index
      end
  end.

(** [fmt % args] *)
Definition format (fmt : string) (args : fmt_args) : Py.exception + string :=
  format_go Lit 0 args fmt.

End PyStr.

(* ================================================================== *)
(** * The job-runner library [pypez]: data *)
(* ================================================================== *)

Module Pypez.

(** Modelled from the spec: the [pypez] library is imported by the
    script and is not part of its source.  A command descriptor is a
    command template together with the declared input and output file
    names; tokens of the template marked [IN:] and [OUT:] declare
    files, and explicit lists add to them. *)
Record CommandDescriptor : Type := mkCommand {
  command : string;
  input_filenames : list string;
  output_filenames : list string
}.

(** Modelled from the spec: the files named by the tokens that carry
    a marker, in the order of the command. *)
Definition marked (marker : string) (tokens : list string) : list string :=
  map (PyStr.drop (String.length marker))
      (filter (fun t => PyStr.startswith t marker) tokens).

(** Modelled from the spec: construction of a descriptor from a command
    string with embedded markers and optional explicit lists. *)
Definition describe (cmd : string) (inputs outputs : list string)
  : CommandDescriptor :=
  let tokens := PyStr.split cmd in
  {| command := cmd;
     input_filenames := (marked "IN:" tokens ++ inputs)%list;
     output_filenames := (marked "OUT:" tokens ++ outputs)%list |}.

(** Modelled from the spec: a job is an ordered sequence of
    descriptors, changed only by appending. *)
Definition Job : Type := list CommandDescriptor.

(** Modelled from the spec: [add] puts a descriptor at the end. *)
Definition add (j : Job) (cmd : string) (inputs outputs : list string) : Job :=
  (j ++ [describe cmd inputs outputs])%list.

End Pypez.

(* ================================================================== *)
(** * The world the script runs in *)
(* ================================================================== *)

(** The local file system: the regular files and their modification
    times ([os.path.getmtime] is a float; every finite float is a
    rational). *)
Definition FileSystem : Type := string -> option Q.

Definition touch (path : string) (t : Q) (files : FileSystem) : FileSystem :=
  fun p => if p =? path then Some t else files p.

Definition no_files : FileSystem := fun _ => None.

Inductive NetEvent : Type :=
| Connect (host : string) (timeout : option Z)
| Login (host : string)
| SendCmd (host : string) (cmd : string).

(** What a server does with a request: it answers, the library raises
    an error, or nothing ever comes back. *)
Inductive reply (A : Type) : Type :=
| Answer (a : A)
| Failure (e : Py.exception)
| Silence.

Arguments Answer {A} a.
Arguments Failure {A} e.
Arguments Silence {A}.

Record Remote : Type := mkRemote {
  welcome : string -> reply unit;
  login_reply : string -> reply unit;
  command_reply : string -> string -> reply string
}.

(** The execution environment of the process. *)
Record Env : Type := mkEnv {
  remote : Remote;
  find_executable : string -> option string;
  importable : string -> bool
}.

(** What the script takes from the standard library, from the
    operating system and from the [pypez] library without this
    development looking inside: [mdtm_seconds s] is
    [int(datetime.strptime(s, "%Y%m%d%H%M%S").strftime("%s"))] ([inl]
    when either call raises), [str_datetime t] is
    [str(datetime.fromtimestamp(t))], [exec] runs an external command
    on the file system and gives its exit status, and [up_to_date] is
    the skip test of the job runner: whether, on a file system, the
    runner finds that a command need not be run.  The runner is not
    part of the repository, and what sections 3, 4.2 and 4.4 of the
    specification say of its test does not settle it (a command whose
    declaring script is newer than its outputs, a command that
    declares no output), so nothing is assumed of it. *)
Record Platform : Type := mkPlatform {
  mdtm_seconds : string -> Py.exception + Z;
  str_datetime : Z -> string;
  exec : string -> FileSystem -> Z * FileSystem;
  up_to_date : FileSystem -> Pypez.CommandDescriptor -> bool
}.

(** The parsed command line. *)
Record Args : Type := mkArgs {
  reference_genome : string;
  assembly : string;
  exac_sites_vcf : option string;
  clinvar_xml : option string;
  clinvar_variant_summary_table : option string
}.

(** The state of a run: the outside world and the two [pypez] objects
    the script holds ([jr], a runner with its parallel queue, and
    [job], the sequential job). *)
Record World : Type := mkWorld {
  fs : FileSystem;
  console : list string;
  net : list NetEvent;
  spawned : list string;
  jr : list Pypez.Job;
  job : Pypez.Job
}.

Definition set_fs (f : FileSystem) (w : World) : World :=
  mkWorld f (console w) (net w) (spawned w) (jr w) (job w).
Definition set_console (c : list string) (w : World) : World :=
  mkWorld (fs w) c (net w) (spawned w) (jr w) (job w).
Definition set_net (n : list NetEvent) (w : World) : World :=
  mkWorld (fs w) (console w) n (spawned w) (jr w) (job w).
Definition set_spawned (s : list string) (w : World) : World :=
  mkWorld (fs w) (console w) (net w) s (jr w) (job w).
Definition set_jr (q : list Pypez.Job) (w : World) : World :=
  mkWorld (fs w) (console w) (net w) (spawned w) q (job w).
Definition set_job (j : Pypez.Job) (w : World) : World :=
  mkWorld (fs w) (console w) (net w) (spawned w) (jr w) j.

(* ================================================================== *)
(** * Computations *)
(* ================================================================== *)

(** How a piece of the script ends: with a value, with an exception,
    with [SystemExit], or never (blocked on a socket that has no
    timeout). *)
Inductive result (A : Type) : Type :=
| Ok (a : A)
| Raised (e : Py.exception)
| Exited (status : Z) (msg : string)
| Hung.

Arguments Ok {A} a.
Arguments Raised {A} e.
Arguments Exited {A} status msg.
Arguments Hung {A}.

Definition M (A : Type) : Type := World -> result A * World.

Definition ret {A} (a : A) : M A := fun w => (Ok a, w).

Definition bind {A B} (m : M A) (k : A -> M B) : M B :=
  fun w =>
    match m w with
    | (Ok a, w') => k a w'
    | (Raised e, w') => (Raised e, w')
    | (Exited status msg, w') => (Exited status msg, w')
    | (Hung, w') => (Hung, w')
    end.

Declare Scope py_scope.
Delimit Scope py_scope with py.
Notation "x <- m ;; k" := (bind m (fun x => k))
  (at level 61, m at next level, right associativity) : py_scope.
Notation "m ;; k" := (bind m (fun _ => k))
  (at level 61, right associativity) : py_scope.
Local Open Scope py_scope.

Definition raise {A} (e : Py.exception) : M A := fun w => (Raised e, w).

(** [try: body  except Exception as e: handler(e)] *)
Definition try_except {A} (body : M A) (handler : Py.exception -> M A) : M A :=
  fun w =>
    match body w with
    | (Raised e, w') => handler e w'
    | other => other
    end.

(** [sys.exit(msg)] with a string: the message goes to standard error
    and the status is 1. *)
Definition sys_exit {A} (msg : string) : M A := fun w => (Exited 1 msg, w).

(** [p.error(msg)] of [argparse]: usage and message on standard error,
    status 2. *)
Definition parser_error {A} (msg : string) : M A := fun w => (Exited 2 msg, w).

(** [assert cond, msg] *)
Definition assert_ (cond : bool) (msg : string) : M unit :=
  if cond then ret tt else raise (Py.AssertionError msg).

Definition print (line : string) : M unit :=
  fun w => (Ok tt, set_console (console w ++ [line])%list w).

(** [fmt % args] as a statement that may raise. *)
Definition fmt (f : string) (args : list string) : M string :=
  match PyStr.format f (PyStr.Positional args) with
  | inr s => ret s
  | inl e => raise e
  end.

Definition fmt_mapping (f : string) (d : list (string * string)) : M string :=
  match PyStr.format f (PyStr.Mapping d) with
  | inr s => ret s
  | inl e => raise e
  end.

Definition is_some {A} (o : option A) : bool :=
  match o with Some _ => true | None => false end.

(** [os.path.isfile] *)
Definition isfile (path : string) : M bool :=
  fun w => (Ok (is_some (fs w path)), w).

(** [os.path.getmtime] *)
Definition getmtime (path : string) : M Q :=
  fun w =>
    match fs w path with
    | Some t => (Ok t, w)
    | None => (Raised (Py.OSError path), w)
    end.

(** [import name] *)
Definition import_ (env : Env) (name : string) : M unit :=
  if importable env name then ret tt else raise (Py.ImportError name).

(** ** [ftplib] *)

Record FTP : Type := mkFTP { ftp_host_of : string; ftp_timeout : option Z }.

(** A blocking socket operation: with a timeout, silence of the peer
    ends in [socket.timeout]; without one the call never returns. *)
Definition await {A} (timeout : option Z) (r : reply A) : M A :=
  match r with
  | Answer a => ret a
  | Failure e => raise e
  | Silence =>
      match timeout with
      | Some _ => raise (Py.NetworkError "timed out")
      | None => fun w => (Hung, w)
      end
  end.

Definition log_net (e : NetEvent) : M unit :=
  fun w => (Ok tt, set_net (net w ++ [e])%list w).

(** [ftplib.FTP(host, timeout=t)] *)
Definition FTP_open (env : Env) (host : string) (timeout : option Z) : M FTP :=
  log_net (Connect host timeout) ;;
  await timeout (welcome (remote env) host) ;;
  ret (mkFTP host timeout).

(** [ftp.login()] *)
Definition FTP_login (env : Env) (ftp : FTP) : M unit :=
  log_net (Login (ftp_host_of ftp)) ;;
  await (ftp_timeout ftp) (login_reply (remote env) (ftp_host_of ftp)).

(** [ftp.sendcmd(cmd)] *)
Definition FTP_sendcmd (env : Env) (ftp : FTP) (cmd : string) : M string :=
  log_net (SendCmd (ftp_host_of ftp) cmd) ;;
  await (ftp_timeout ftp) (command_reply (remote env) (ftp_host_of ftp) cmd).

(* ================================================================== *)
(** * The lookup of external tools *)
(* ================================================================== *)

Module Distutils.

(** [distutils.spawn.find_executable(executable)] of Python 2.7 on a
    POSIX system, [path] being the value of the environment variable
    [PATH]: the name itself when it is a regular file (which, for a
    bare name, is a file of the working directory), else the first
    [os.path.join(p, executable)] that is a regular file, for [p] in
    [path.split(os.pathsep)], else [None]. *)
Definition find_executable (path : string) (files : FileSystem)
           (executable : string) : option string :=
  if is_some (files executable) then Some executable
  else find (fun f => is_some (files f))
            (map (fun p => PyStr.path_join p executable) (PyStr.split_on ":" path)).

End Distutils.

(* ================================================================== *)
(** * The job-runner library [pypez]: execution *)
(* ================================================================== *)

Module Runner.

Import Pypez.

(** Modelled from the spec: after a command ran, the runner verifies
    that all declared outputs exist. *)
Definition outputs_exist (c : CommandDescriptor) : M bool :=
  fun w => (Ok (forallb (fun o => is_some (fs w o)) (output_filenames c)), w).

(** Modelled from the spec: the runner starts the external command
    and waits for it; this is the only place where a command reaches
    the operating system. *)
Definition spawn (P : Platform) (cmd : string) : M Z :=
  fun w =>
    let (status, files) := exec P cmd (fs w) in
    (Ok status, set_spawned (spawned w ++ [cmd])%list (set_fs files w)).

(** Modelled from the spec: a command that is run is logged, and a
    non-zero exit status or a missing output afterwards is a failure. *)
Definition execute (P : Platform) (c : CommandDescriptor) : M unit :=
  print ("Running: " ++ command c) ;;
  status <- spawn P (command c) ;;
  if (status =? 0)%Z then
    present <- outputs_exist c ;;
    if present then ret tt
    else raise (Py.CommandError (command c) "expected output missing")
  else raise (Py.CommandError (command c) "non-zero exit status").

(** Modelled from the spec: one step of the runner: skip (log and
    continue) when the runner's test finds the command up to date,
    otherwise run the command and check that its outputs are there. *)
Definition run_command (P : Platform) (c : CommandDescriptor) : M unit :=
  fun w =>
    if up_to_date P (fs w) c
    then print ("Skipping: " ++ command c) w
    else execute P c w.

(** Modelled from the spec: sequential mode, [jr.run(job)]: the
    descriptors in append order, the first failure ends the run. *)
Fixpoint run_job (P : Platform) (j : Job) : M unit :=
  match j with
  | [] => ret tt
  | c :: rest => run_command P c ;; run_job P rest
  end.

(** Modelled from the spec: in a batch a failed command is recorded
    and does not stop its siblings. *)
Definition attempt (P : Platform) (c : CommandDescriptor) : M bool :=
  try_except (run_command P c ;; ret true) (fun _ => ret false).

(** Modelled from the spec: the whole batch is run; the result says
    whether every command succeeded. *)
Fixpoint run_all (P : Platform) (cs : list CommandDescriptor) : M bool :=
  match cs with
  | [] => ret true
  | c :: rest =>
      ok <- attempt P c ;;
      oks <- run_all P rest ;;
      ret (ok && oks)
  end.

(** Modelled from the spec: parallel mode, [jr.run()]: every queued
    command is run, a failure does not stop the others, and the batch
    fails when one of them failed.  The commands of the queue are
    independent; the embedding runs them in queue order. *)
Definition run_queue (P : Platform) : M unit :=
  fun w =>
    (ok <- run_all P (List.concat (jr w)) ;;
     if ok then ret tt
     else raise (Py.CommandError "parallel batch" "a command failed"))
      (set_jr [] w).

(** Modelled from the spec: [jr.add_parallel(job)] only puts the job
    on the queue. *)
Definition add_parallel (j : Job) : M unit :=
  fun w => (Ok tt, set_jr (jr w ++ [j])%list w).

(** Modelled from the spec: [jr = pypez.JobRunner()], a runner with
    an empty queue. *)
Definition new_runner : M unit := fun w => (Ok tt, set_jr [] w).

(** Modelled from the spec: [job = pypez.Job()], an empty job. *)
Definition new_job : M unit := fun w => (Ok tt, set_job [] w).

(** Modelled from the spec:
    [job.add(cmd, input_filenames=inputs, output_filenames=outputs)]
    appends the descriptor. *)
Definition job_add (cmd : string) (inputs outputs : list string) : M unit :=
  fun w => (Ok tt, set_job (Pypez.add (job w) cmd inputs outputs) w).

End Runner.

(* ================================================================== *)
(** * The script *)
(* ================================================================== *)

(** [int > float] of Python, exact on the rationals. *)
Definition Qgtb (x y : Q) : bool :=
  (Qnum y * QDen x <? Qnum x * QDen y)%Z.

Section Script.

Variable P : Platform.
Variable env : Env.

(** Lines 7-21: imports and the check of the external tools. *)
Definition required_executables : list string :=
  ["wget"; "Rscript"; "tabix"; "vt"].

Fixpoint check_executables (names : list string) : M unit :=
  match names with
  | [] => ret tt
  | executable :: rest =>
      msg <- fmt "Command %s not found, see README" [executable] ;;
      assert_ (Py.truthy (find_executable env executable)) msg ;;
      check_executables rest
  end.

Definition check_dependencies : M unit :=
  import_ env "configargparse" ;;
  try_except
    (import_ env "pypez" ;; import_ env "pysam" ;; import_ env "pandas")
    (fun e =>
       match e with
       | Py.ImportError _ =>
           msg <- fmt "ERROR: Python module not installed. %s. Please run 'pip install -r requirements.txt' "
                      [Py.str_exception e] ;;
           sys_exit msg
       | _ => raise e
       end) ;;
  check_executables required_executables.

(** Lines 34-42: the reference genome and the ExAC sites file. *)
Definition check_exac (args : Args) : M unit :=
  match Py.supplied (exac_sites_vcf args) with
  | Some exac =>
      present <- isfile exac ;;
      (if negb present then
         msg <- fmt "ExAC sites vcf: file not found: %s" [exac] ;;
         parser_error msg
       else ret tt) ;;
      indexed <- isfile (exac ++ ".tbi") ;;
      (if negb indexed then
         msg <- fmt "ExAC sites vcf: tabix index not found: %{s}.tbi" [exac] ;;
         parser_error msg
       else ret tt)
  | None => ret tt
  end.

Definition check_inputs (args : Args) : M unit :=
  present <- isfile (reference_genome args) ;;
  (if negb present then
     msg <- fmt "genome reference: file not found: %s" [reference_genome args] ;;
     parser_error msg
   else ret tt) ;;
  check_exac args.

(** Lines 44-56. *)
Definition query_mdtm (ftp_host ftp_path : string) : M Z :=
  ftp <- FTP_open env ftp_host (Some 3%Z) ;;
  FTP_login env ftp ;;
  response <- FTP_sendcmd env ftp ("MDTM " ++ ftp_path) ;;
  match mdtm_seconds P (PyStr.drop 4 response) with
  | inr seconds => ret seconds
  | inl e => raise e
  end.

Definition get_remote_file_changed_time (ftp_host ftp_path : string) : M Z :=
  line <- fmt "Retrieving last-changed time for %s"
              [PyStr.path_join ftp_host ftp_path] ;;
  print line ;;
  try_except
    (query_mdtm ftp_host ftp_path)
    (fun e =>
       line <- fmt "ERROR: retrieving last-changed time for %s: %s"
                   [PyStr.path_join ftp_host ftp_path; Py.str_exception e] ;;
       print line ;;
       ret 0%Z).

(** Lines 59-66.  The [job_runner] argument is always the one runner
    [jr] of the script, whose queue is part of the state. *)
Definition download_if_changed (local_path ftp_host ftp_path : string) : M unit :=
  remote_changed_time <- get_remote_file_changed_time ftp_host ftp_path ;;
  present <- isfile local_path ;;
  local_changed_time <- (if present then getmtime local_path else ret 0%Q) ;;
  ftp_address <- fmt "ftp://%s/%s" [ftp_host; ftp_path] ;;
  if Qgtb (inject_Z remote_changed_time) local_changed_time then
    cmd <- fmt "wget %s -O OUT:%s" [ftp_address; local_path] ;;
    Runner.add_parallel [Pypez.describe cmd [] []]
  else
    line <- fmt "Local copy of %s is up to date. The remote version hasn't changed since %s"
                [ftp_address; str_datetime P remote_changed_time] ;;
    print line.

(** Lines 71-80. *)
Definition resolve_clinvar_xml (args : Args) : M string :=
  match Py.supplied (clinvar_xml args) with
  | Some xml =>
      present <- isfile xml ;;
      (if negb present then
         msg <- fmt "ClinVar XML specified but not found: %s" [xml] ;;
         parser_error msg
       else ret tt) ;;
      (if negb (PyStr.endswith xml ".gz") then
         msg <- fmt "ClinVar XML expected to be gzipped: %s" [xml] ;;
         parser_error msg
       else ret tt) ;;
      ret xml
  | None =>
      print "Checking for new clinvar release" ;;
      download_if_changed "ClinVarFullRelease_00-latest.xml.gz"
                          "ftp.ncbi.nlm.nih.gov"
                          "/pub/clinvar/xml/ClinVarFullRelease_00-latest.xml.gz" ;;
      ret "ClinVarFullRelease_00-latest.xml.gz"
  end.

(** Lines 82-91. *)
Definition resolve_variant_summary_table (args : Args) : M string :=
  match Py.supplied (clinvar_variant_summary_table args) with
  | Some table =>
      present <- isfile table ;;
      (if negb present then
         msg <- fmt "ClinVar variant summary table specified but not found: %s" [table] ;;
         parser_error msg
       else ret tt) ;;
      (if negb (PyStr.endswith table ".gz") then
         msg <- fmt "ClinVar variant summary table expected to be gzipped: %s" [table] ;;
         parser_error msg
       else ret tt) ;;
      ret table
  | None =>
      print "Checking for new clinvar release" ;;
      download_if_changed "variant_summary.txt.gz"
                          "ftp.ncbi.nlm.nih.gov"
                          "/pub/clinvar/tab_delimited/variant_summary.txt.gz" ;;
      ret "variant_summary.txt.gz"
  end.


(** The string-valued module globals that [locals()] holds when the
    job is assembled. *)
Definition locals
           (reference_genome clinvar_xml variant_summary_table : string)
           (normalized_vcf : option string) : list (string * string) :=
  ([("executable", "vt");
    ("reference_genome", reference_genome);
    ("clinvar_xml", clinvar_xml);
    ("variant_summary_table", variant_summary_table)]
   ++ match normalized_vcf with
      | Some v => [("normalized_vcf", v)]
      | None => []
      end)%list.

Definition sort_command : string :=
  "(cat IN:clinvar_combined.tsv | head -1 > OUT:clinvar_combined_sorted.tsv ) && "
  ++ "(cat IN:clinvar_combined.tsv | tail -n +2 | egrep -v " ++ PyStr.dquote
  ++ "^[XYM]" ++ PyStr.dquote
  ++ " | sort -k1,1n -k2,2n -k3,3 -k4,4 >> OUT:clinvar_combined_sorted.tsv ) && "
  ++ "(cat IN:clinvar_combined.tsv | tail -n +2 | egrep " ++ PyStr.dquote
  ++ "^[XYM]" ++ PyStr.dquote
  ++ " | sort -k1,1 -k2,2n -k3,3 -k4,4 >> OUT:clinvar_combined_sorted.tsv )".

(** Lines 140-148: in the triple-quoted literal the backslash before
    the first line break joins the two lines, and the escape in
    [tr ';' '\n'] is a line break. *)
Definition stats_command : string :=
  "echo Columns: $(gunzip -c clinvar.tsv.gz | head -n 1 | python -c "
  ++ PyStr.dquote
  ++ "import sys;print(', '.join(['%s: %s'%(i+1,v) for l in sys.stdin for i,v in enumerate(l.split())]))"
  ++ PyStr.dquote ++ ") > OUT:clinvar_stats.txt &&" ++ PyStr.newline
  ++ "echo ================ >> OUT:clinvar_stats.txt &&" ++ PyStr.newline
  ++ "echo Total Rows: $(gunzip -c clinvar.tsv.gz | tail -n +2 | wc -l) >> OUT:clinvar_stats.txt &&"
  ++ PyStr.newline
  ++ "for i in 8 9 10 11 12 13 19 20 21 22 23; do " ++ PyStr.newline
  ++ "    echo ================ >> OUT:clinvar_stats.txt ;" ++ PyStr.newline
  ++ "    gunzip -c IN:clinvar.tsv.gz | head -n 1 | cut -f $i >> OUT:clinvar_stats.txt ;"
  ++ PyStr.newline
  ++ "    gunzip -c IN:clinvar.tsv.gz | tail -n +2 | cut -f $i | tr ';' '"
  ++ PyStr.newline
  ++ "' | sort | uniq -c | sort -r -n >> OUT:clinvar_stats.txt ;" ++ PyStr.newline
  ++ "done" ++ PyStr.newline.

(** Lines 124-130. *)
Definition add_exac_steps (args : Args) (clinvar_xml variant_summary_table : string)
  : M unit :=
  match Py.supplied (exac_sites_vcf args) with
  | Some exac =>
      let normalized_vcf :=
        PyStr.before_first ".vcf" (PyStr.basename exac) ++ ".normalized.vcf.gz" in
      cmd <- fmt "vt decompose -s IN:%s | vt normalize -r IN:%s - | bgzip -c > OUT:%s"
                 [exac; reference_genome args; normalized_vcf] ;;
      Runner.job_add cmd [] [] ;;
      Runner.job_add ("tabix IN:" ++ normalized_vcf) [] [normalized_vcf ++ ".tbi"] ;;
      cmd <- fmt_mapping
               "python -u IN:add_exac_fields.py -i IN:clinvar.tsv -e IN:%(normalized_vcf)s | bgzip -c > OUT:clinvar_with_exac.tsv.gz"
               (locals (reference_genome args) clinvar_xml variant_summary_table
                       (Some normalized_vcf)) ;;
      Runner.job_add cmd [] [] ;;
      Runner.job_add "tabix -S 1 -s 1 -b 2 -e 2 IN:clinvar_with_exac.tsv.gz" []
                     ["clinvar_with_exac.tsv.gz.tbi"] ;;
      Runner.job_add "cp IN:clinvar_with_exac.tsv.gz IN:clinvar_with_exac.tsv.gz.tbi ../" []
                     ["../clinvar_with_exac.tsv.gz"; "../clinvar_with_exac.tsv.gz.tbi"]
  | None => ret tt
  end.

(** Lines 95-151: the sequential job. *)
Definition build_job (args : Args) (clinvar_xml variant_summary_table : string)
  : M unit :=
  Runner.new_job ;;
  cmd <- fmt "python -u IN:parse_clinvar_xml.py -x IN:%s -o OUT:clinvar_table_raw.tsv -a %s"
             [clinvar_xml; assembly args] ;;
  Runner.job_add cmd [] [] ;;
  Runner.job_add
    "wget -N https://raw.githubusercontent.com/ericminikel/minimal_representation/master/normalize.py"
    [] [] ;;
  cmd <- fmt_mapping
           "python -u normalize.py -R IN:%(reference_genome)s < IN:clinvar_table_raw.tsv > OUT:clinvar_table_normalized.tsv"
           (locals (reference_genome args) clinvar_xml variant_summary_table None) ;;
  Runner.job_add cmd [] [] ;;
  cmd <- fmt "Rscript IN:join_data.R IN:%s" [variant_summary_table] ;;
  Runner.job_add cmd ["clinvar_table_normalized.tsv"] ["clinvar_combined.tsv"] ;;
  Runner.job_add sort_command [] [] ;;
  Runner.job_add
    "python -u IN:dedup_clinvar.py < IN:clinvar_combined_sorted.tsv | tee clinvar.tsv | bgzip -c > OUT:clinvar.tsv.gz"
    [] [] ;;
  Runner.job_add "tabix -S 1 -s 1 -b 2 -e 2 IN:clinvar.tsv.gz" [] ["clinvar.tsv.gz.tbi"] ;;
  Runner.job_add "cp IN:clinvar.tsv.gz IN:clinvar.tsv.gz.tbi ../" []
                 ["../clinvar.tsv"; "../clinvar.tsv.gz"; "../clinvar.tsv.gz.tbi"] ;;
  Runner.job_add
    "python -u IN:clinvar_table_to_vcf.py IN:clinvar.tsv | bgzip -c > OUT:clinvar.vcf.gz"
    [] [] ;;
  Runner.job_add "tabix IN:clinvar.vcf.gz" [] ["clinvar.vcf.gz.tbi"] ;;
  Runner.job_add "cp IN:clinvar.vcf.gz IN:clinvar.vcf.gz.tbi ../" []
                 ["../clinvar.vcf.gz"; "../clinvar.vcf.gz.tbi"] ;;
  add_exac_steps args clinvar_xml variant_summary_table ;;
  Runner.job_add
    "gunzip -c IN:clinvar.vcf.gz | head -n 750 > OUT:../clinvar_example_750_rows.vcf" [] [] ;;
  Runner.job_add
    "gunzip -c IN:clinvar.tsv.gz | head -n 750 > OUT:../clinvar_example_750_rows.tsv" [] [] ;;
  Runner.job_add
    "gunzip -c IN:clinvar_with_exac.tsv.gz | head -n 750 > OUT:../clinvar_with_exac_example_750_rows.tsv"
    [] [] ;;
  Runner.job_add stats_command ["clinvar.tsv.gz"; "master.py"] [] ;;
  Runner.job_add "cp IN:clinvar_stats.txt OUT:../clinvar_stats.txt" [] [].

(** Lines 69-91: the runner is created and the two source files are
    resolved; the result is the pair [(clinvar_xml,
    variant_summary_table)]. *)
Definition resolve_sources (args : Args) : M (string * string) :=
  Runner.new_runner ;;
  xml <- resolve_clinvar_xml args ;;
  table <- resolve_variant_summary_table args ;;
  ret (xml, table).

(** Everything the script does before the first [jr.run()], for a
    command line that [parse_args] accepted. *)
Definition configure (args : Args) : M (string * string) :=
  check_dependencies ;;
  check_inputs args ;;
  resolve_sources args.

(** The script from the first import to the last line. *)
Definition main (args : Args) : M unit :=
  sources <- configure args ;;
  Runner.run_queue P ;;
  build_job args (fst sources) (snd sources) ;;
  fun w => Runner.run_job P (job w) w.

End Script.

(* ================================================================== *)
(** * The properties, as definitions *)
(* ================================================================== *)

(** The job that [download_if_changed] puts on the queue. *)
Definition wget_job (local_path ftp_host ftp_path : string) : Pypez.Job :=
  [Pypez.describe
     ("wget ftp://" ++ ftp_host ++ "/" ++ ftp_path ++ " -O OUT:" ++ local_path)
     [] []].

Definition enqueued (j : Pypez.Job) (w w' : World) : Prop :=
  jr w' = (jr w ++ [j])%list.

(** The time stamp of the local copy: its mtime, or the epoch when
    there is no such file. *)
Definition local_effective_time (files : FileSystem) (local_path : string) : Q :=
  match files local_path with
  | Some t => t
  | None => 0%Q
  end.

(** What [get_remote_file_changed_time] returns in a given state. *)
Definition remote_changed_time (P : Platform) (env : Env)
           (ftp_host ftp_path : string) (w : World) : Z :=
  match fst (get_remote_file_changed_time P env ftp_host ftp_path w) with
  | Ok t => t
  | _ => 0%Z
  end.

Definition query_succeeds (P : Platform) (env : Env)
           (ftp_host ftp_path : string) (w : World) : Prop :=
  exists t, fst (query_mdtm P env ftp_host ftp_path w) = Ok t.

Definition query_fails (P : Platform) (env : Env)
           (ftp_host ftp_path : string) (w : World) : Prop :=
  exists e, fst (query_mdtm P env ftp_host ftp_path w) = Raised e.

(** The freshness decision with its two corollaries, as the
    specification words it. *)
Definition freshness_decision (P : Platform) (env : Env)
           (local_path ftp_host ftp_path : string) (w : World) : Prop :=
  let w' := snd (download_if_changed P env local_path ftp_host ftp_path w) in
  (enqueued (wget_job local_path ftp_host ftp_path) w w'
   <-> (local_effective_time (fs w) local_path
        < inject_Z (remote_changed_time P env ftp_host ftp_path w))%Q)
  /\ (fs w local_path = None ->
      query_succeeds P env ftp_host ftp_path w ->
      enqueued (wget_job local_path ftp_host ftp_path) w w')
  /\ (forall t, fs w local_path = Some t ->
                (inject_Z (remote_changed_time P env ftp_host ftp_path w) < t)%Q ->
                jr w' = jr w).

(** A failed query gives the sentinel and leaves the queue alone, as
    the specification words it. *)
Definition failure_means_no_action (P : Platform) (env : Env)
           (local_path ftp_host ftp_path : string) (w : World) : Prop :=
  query_fails P env ftp_host ftp_path w ->
  (exists w1, get_remote_file_changed_time P env ftp_host ftp_path w = (Ok 0%Z, w1))
  /\ jr (snd (download_if_changed P env local_path ftp_host ftp_path w)) = jr w.

(** The source files the sequential job reads, once resolved. *)
Definition resolved_xml (args : Args) : string :=
  match Py.supplied (clinvar_xml args) with
  | Some xml => xml
  | None => "ClinVarFullRelease_00-latest.xml.gz"
  end.

Definition resolved_table (args : Args) : string :=
  match Py.supplied (clinvar_variant_summary_table args) with
  | Some table => table
  | None => "variant_summary.txt.gz"
  end.

(** The sequential job of a configuration. *)
Definition job_of (args : Args) : Pypez.Job :=
  job (snd (build_job args (resolved_xml args) (resolved_table args)
                      (mkWorld no_files [] [] [] [] []))).

(** The files that exist by construction when the sequential job
    starts: those the script checked and those it resolved or queued
    for download. *)
Definition ensured_files (args : Args) : list string :=
  ([reference_genome args; resolved_xml args; resolved_table args]
   ++ match Py.supplied (exac_sites_vcf args) with
      | Some exac => [exac; (exac ++ ".tbi")%string]
      | None => []
      end)%list.

Definition exac_example_step : Pypez.CommandDescriptor :=
  Pypez.describe
    "gunzip -c IN:clinvar_with_exac.tsv.gz | head -n 750 > OUT:../clinvar_with_exac_example_750_rows.tsv"
    [] [].

(** C6 as the specification words it: the job holds the example
    step of the ExAC table, and the file that step reads is neither
    one of the files that are there by construction nor a declared
    output of an earlier step. *)
Definition dangling_exac_example (args : Args) : Prop :=
  exists n,
    nth_error (job_of args) n = Some exac_example_step
    /\ In "clinvar_with_exac.tsv.gz" (Pypez.input_filenames exac_example_step)
    /\ ~ In "clinvar_with_exac.tsv.gz" (ensured_files args)
    /\ forall c, In c (firstn n (job_of args)) ->
                 ~ In "clinvar_with_exac.tsv.gz" (Pypez.output_filenames c).

(** An argument value that carries an output marker for [file]. *)
Definition marks_output (file value : string) : Prop :=
  In ("OUT:" ++ file) (PyStr.split value).

(** ** Path names and files

    Several path names can stand for one file: [x] and [./x], a
    relative and an absolute spelling, a link.  Which names do is
    decided by the file system of the run; [same_file] is that
    identification: an equivalence under which a relative name and the
    same name behind [./] are one file. *)
Record path_identification (same_file : string -> string -> bool) : Prop := {
  same_file_refl : forall a, same_file a a = true;
  same_file_sym : forall a b, same_file a b = same_file b a;
  same_file_trans :
    forall a b c, same_file a b = true -> same_file b c = true ->
                  same_file a c = true;
  same_file_dot :
    forall a, PyStr.startswith a "/" = false -> same_file ("./" ++ a) a = true
}.




(** ** The pipeline in the order of the specification *)

Definition main_steps (args : Args) (xml table : string) : Pypez.Job :=
  [ (* parse the ClinVar XML *)
    Pypez.describe
      ("python -u IN:parse_clinvar_xml.py -x IN:" ++ xml
       ++ " -o OUT:clinvar_table_raw.tsv -a " ++ assembly args) [] [];
    (* fetch and run the normalization script *)
    Pypez.describe
      "wget -N https://raw.githubusercontent.com/ericminikel/minimal_representation/master/normalize.py"
      [] [];
    Pypez.describe
      ("python -u normalize.py -R IN:" ++ reference_genome args
       ++ " < IN:clinvar_table_raw.tsv > OUT:clinvar_table_normalized.tsv") [] [];
    (* join with the variant summary table *)
    Pypez.describe ("Rscript IN:join_data.R IN:" ++ table)
                   ["clinvar_table_normalized.tsv"] ["clinvar_combined.tsv"];
    (* sort by genomic coordinates: the header row, the numbered
       chromosomes in numerical order, then X, Y and M *)
    Pypez.describe
      ("(cat IN:clinvar_combined.tsv | head -1 > OUT:clinvar_combined_sorted.tsv ) && "
       ++ "(cat IN:clinvar_combined.tsv | tail -n +2 | egrep -v "
       ++ PyStr.dquote ++ "^[XYM]" ++ PyStr.dquote
       ++ " | sort -k1,1n -k2,2n -k3,3 -k4,4 >> OUT:clinvar_combined_sorted.tsv ) && "
       ++ "(cat IN:clinvar_combined.tsv | tail -n +2 | egrep "
       ++ PyStr.dquote ++ "^[XYM]" ++ PyStr.dquote
       ++ " | sort -k1,1 -k2,2n -k3,3 -k4,4 >> OUT:clinvar_combined_sorted.tsv )")
      [] [];
    (* deduplicate and compress *)
    Pypez.describe
      "python -u IN:dedup_clinvar.py < IN:clinvar_combined_sorted.tsv | tee clinvar.tsv | bgzip -c > OUT:clinvar.tsv.gz"
      [] [];
    (* index and copy the table *)
    Pypez.describe "tabix -S 1 -s 1 -b 2 -e 2 IN:clinvar.tsv.gz" [] ["clinvar.tsv.gz.tbi"];
    Pypez.describe "cp IN:clinvar.tsv.gz IN:clinvar.tsv.gz.tbi ../" []
                   ["../clinvar.tsv"; "../clinvar.tsv.gz"; "../clinvar.tsv.gz.tbi"];
    (* derive and index the VCF *)
    Pypez.describe
      "python -u IN:clinvar_table_to_vcf.py IN:clinvar.tsv | bgzip -c > OUT:clinvar.vcf.gz"
      [] [];
    Pypez.describe "tabix IN:clinvar.vcf.gz" [] ["clinvar.vcf.gz.tbi"];
    Pypez.describe "cp IN:clinvar.vcf.gz IN:clinvar.vcf.gz.tbi ../" []
                   ["../clinvar.vcf.gz"; "../clinvar.vcf.gz.tbi"] ].

Definition exac_steps (args : Args) : Pypez.Job :=
  match Py.supplied (exac_sites_vcf args) with
  | Some exac =>
      let normalized_vcf :=
        PyStr.before_first ".vcf" (PyStr.basename exac) ++ ".normalized.vcf.gz" in
      [ Pypez.describe
          ("vt decompose -s IN:" ++ exac ++ " | vt normalize -r IN:"
           ++ reference_genome args ++ " - | bgzip -c > OUT:" ++ normalized_vcf) [] [];
        Pypez.describe ("tabix IN:" ++ normalized_vcf) [] [normalized_vcf ++ ".tbi"];
        Pypez.describe
          ("python -u IN:add_exac_fields.py -i IN:clinvar.tsv -e IN:" ++ normalized_vcf
           ++ " | bgzip -c > OUT:clinvar_with_exac.tsv.gz") [] [];
        Pypez.describe "tabix -S 1 -s 1 -b 2 -e 2 IN:clinvar_with_exac.tsv.gz" []
                       ["clinvar_with_exac.tsv.gz.tbi"];
        Pypez.describe
          "cp IN:clinvar_with_exac.tsv.gz IN:clinvar_with_exac.tsv.gz.tbi ../" []
          ["../clinvar_with_exac.tsv.gz"; "../clinvar_with_exac.tsv.gz.tbi"] ]
  | None => []
  end.

Definition closing_steps : Pypez.Job :=
  [ (* the example files *)
    Pypez.describe
      "gunzip -c IN:clinvar.vcf.gz | head -n 750 > OUT:../clinvar_example_750_rows.vcf" [] [];
    Pypez.describe
      "gunzip -c IN:clinvar.tsv.gz | head -n 750 > OUT:../clinvar_example_750_rows.tsv" [] [];
    exac_example_step;
    (* the statistics summary: the column names, the number of rows
       and the counts of the values of eleven columns *)
    Pypez.describe
      ("echo Columns: $(gunzip -c clinvar.tsv.gz | head -n 1 | python -c "
       ++ PyStr.dquote
       ++ "import sys;print(', '.join(['%s: %s'%(i+1,v) for l in sys.stdin for i,v in enumerate(l.split())]))"
       ++ PyStr.dquote ++ ") > OUT:clinvar_stats.txt &&" ++ PyStr.newline
       ++ "echo ================ >> OUT:clinvar_stats.txt &&" ++ PyStr.newline
       ++ "echo Total Rows: $(gunzip -c clinvar.tsv.gz | tail -n +2 | wc -l) >> OUT:clinvar_stats.txt &&"
       ++ PyStr.newline
       ++ "for i in 8 9 10 11 12 13 19 20 21 22 23; do " ++ PyStr.newline
       ++ "    echo ================ >> OUT:clinvar_stats.txt ;" ++ PyStr.newline
       ++ "    gunzip -c IN:clinvar.tsv.gz | head -n 1 | cut -f $i >> OUT:clinvar_stats.txt ;"
       ++ PyStr.newline
       ++ "    gunzip -c IN:clinvar.tsv.gz | tail -n +2 | cut -f $i | tr ';' '"
       ++ PyStr.newline
       ++ "' | sort | uniq -c | sort -r -n >> OUT:clinvar_stats.txt ;" ++ PyStr.newline
       ++ "done" ++ PyStr.newline)
      ["clinvar.tsv.gz"; "master.py"] [];
    Pypez.describe "cp IN:clinvar_stats.txt OUT:../clinvar_stats.txt" [] [] ].

Definition pipeline (args : Args) (xml table : string) : Pypez.Job :=
  (main_steps args xml table ++ exac_steps args ++ closing_steps)%list.

(** ** The stages the specification names *)

Inductive Stage : Type :=
| ParseXml          (* parse the ClinVar XML *)
| FetchNormalizer   (* fetch the normalization script *)
| Normalize         (* run the normalization script *)
| Join              (* join with the variant summary table *)
| Sort              (* sort by genomic coordinates *)
| Deduplicate       (* deduplicate and compress *)
| Index             (* index with tabix *)
| Publish           (* copy to the parent directory *)
| DeriveVcf         (* derive the VCF *)
| NormalizeExac     (* normalize the ExAC sites file *)
| AddExac           (* the table with the ExAC fields *)
| Example           (* an example file of 750 rows *)
| Statistics.       (* the statistics summary *)

(** The stage a Python command belongs to, by the script it runs. *)
Definition script_stage (script : string) : option Stage :=
  if script =? "IN:parse_clinvar_xml.py" then Some ParseXml
  else if script =? "normalize.py" then Some Normalize
  else if script =? "IN:dedup_clinvar.py" then Some Deduplicate
  else if script =? "IN:clinvar_table_to_vcf.py" then Some DeriveVcf
  else if script =? "IN:add_exac_fields.py" then Some AddExac
  else None.

(** The stage of a command, read off the program it starts: the
    script for [python -u] and [Rscript], the file fetched for
    [wget], the presence of [sort] for a pipeline of shell commands
    that begins with [(cat]. *)
Definition stage_of (c : Pypez.CommandDescriptor) : option Stage :=
  match PyStr.split (Pypez.command c) with
  | program :: operands =>
      if program =? "python" then
        match operands with
        | option :: script :: _ =>
            if option =? "-u" then script_stage script else None
        | _ => None
        end
      else if program =? "wget" then
        if existsb (fun t => PyStr.endswith t "/normalize.py") operands
        then Some FetchNormalizer else None
      else if program =? "Rscript" then
        match operands with
        | script :: _ => if script =? "IN:join_data.R" then Some Join else None
        | [] => None
        end
      else if program =? "(cat" then
        if existsb (String.eqb "sort") operands then Some Sort else None
      else if program =? "tabix" then Some Index
      else if program =? "cp" then
        if existsb (String.eqb "../") operands
           || existsb (fun t => PyStr.startswith t "OUT:../") operands
        then Some Publish else None
      else if program =? "vt" then Some NormalizeExac
      else if program =? "gunzip" then
        if existsb (String.eqb "750") operands then Some Example else None
      else if program =? "echo" then Some Statistics
      else None
  | [] => None
  end.

(** The order of the stages in the specification, with and without
    the ExAC steps. *)
Definition stages (with_exac : bool) : list Stage :=
  ([ParseXml; FetchNormalizer; Normalize; Join; Sort; Deduplicate;
    Index; Publish; DeriveVcf; Index; Publish]
   ++ (if with_exac then [NormalizeExac; Index; AddExac; Index; Publish] else [])
   ++ [Example; Example; Example; Statistics; Publish])%list.

(** ** Frames and outcomes *)

(** A computation that leaves the state as it found it. *)
Definition stateless {A} (m : M A) : Prop := forall w, snd (m w) = w.

Definition not_connect (e : NetEvent) : Prop :=
  match e with Connect _ _ => False | _ => True end.

(** A computation that came back, with a value or an exception. *)
Definition settled {A} (r : result A) : Prop :=
  match r with Ok _ | Raised _ => True | _ => False end.

(** From [w] to [w'] no file changed and no process was started; the
    console and the network trace may have grown. *)
Definition no_local_mutation (w w' : World) : Prop :=
  fs w' = fs w
  /\ spawned w' = spawned w
  /\ (exists lines, console w' = console w ++ lines)%list
  /\ (exists events, net w' = net w ++ events)%list.

(** A computation that changes no file and starts no process. *)
Definition quiet {A} (m : M A) : Prop :=
  forall w, no_local_mutation w (snd (m w)).

Definition required_modules : list string :=
  ["configargparse"; "pypez"; "pysam"; "pandas"].

Definition missing_dependency (env : Env) (name : string) : Prop :=
  (In name required_modules /\ importable env name = false)
  \/ (In name required_executables
      /\ Py.truthy (find_executable env name) = false).

(** The environment of a process that is started with [PATH] set to
    [path] in a working directory where the files are [files]. *)
Definition process_env (r : Remote) (path : string) (files : FileSystem)
           (modules : string -> bool) : Env :=
  {| remote := r;
     find_executable := Distutils.find_executable path files;
     importable := modules |}.

(** A regular file of that name lies in a directory of the execution
    path. *)
Definition on_execution_path (path : string) (files : FileSystem)
           (tool : string) : Prop :=
  exists dir,
    In dir (PyStr.split_on ":" path)
    /\ is_some (files (PyStr.path_join dir tool)) = true.

(** A module that cannot be imported, or a tool that is neither a file
    of the working directory nor on the execution path. *)
Definition unfindable (path : string) (files : FileSystem)
           (modules : string -> bool) (name : string) : Prop :=
  (In name required_modules /\ modules name = false)
  \/ (In name required_executables
      /\ files name = None
      /\ ~ on_execution_path path files name).

(** The three ways in which the script names a missing dependency:
    the traceback of an import outside the [try], the message of
    [sys.exit], and the message of the failed [assert]. *)
Definition reports {A} (r : result A) (name : string) : Prop :=
  r = Raised (Py.ImportError name)
  \/ r = Exited 1 ("ERROR: Python module not installed. No module named "
                   ++ name ++ ". Please run 'pip install -r requirements.txt' ")
  \/ r = Raised (Py.AssertionError ("Command " ++ name ++ " not found, see README")).

(** The reference genome is there and, when [-E] is given, so are the
    ExAC sites file and its index. *)
Definition inputs_present (files : FileSystem) (args : Args) : bool :=
  is_some (files (reference_genome args))
  && match Py.supplied (exac_sites_vcf args) with
     | Some exac => is_some (files exac) && is_some (files (exac ++ ".tbi")%string)
     | None => true
     end.

(** The comparison of line 63 for a local file and a remote path. *)
Definition wants_download (P : Platform) (env : Env) (w : World)
           (local_path ftp_host ftp_path : string) : bool :=
  Qgtb (inject_Z (remote_changed_time P env ftp_host ftp_path w))
       (local_effective_time (fs w) local_path).

(** ** Declared files *)

(** Line 125: the name of the normalized ExAC file. *)
Definition normalized_vcf (exac : string) : string :=
  PyStr.before_first ".vcf" (PyStr.basename exac) ++ ".normalized.vcf.gz".

(** A string without white space. *)
Fixpoint spaceless (s : string) : bool :=
  match s with
  | EmptyString => true
  | String c s' => negb (PyStr.is_space c) && spaceless s'
  end.

(** A string that does not begin with a marker. *)
Definition unmarked (v : string) : bool :=
  negb (PyStr.startswith v "IN:") && negb (PyStr.startswith v "OUT:").

(** Argument values that are single words, the assembly not being a
    marked one. *)
Definition plain_arguments (args : Args) : Prop :=
  spaceless (reference_genome args) = true
  /\ spaceless (assembly args) = true
  /\ unmarked (assembly args) = true
  /\ spaceless (resolved_xml args) = true
  /\ spaceless (resolved_table args) = true
  /\ (forall exac, Py.supplied (exac_sites_vcf args) = Some exac ->
                   spaceless exac = true).

(** What a step declares: its inputs and its outputs. *)
Definition declared (c : Pypez.CommandDescriptor) : list string * list string :=
  (Pypez.input_filenames c, Pypez.output_filenames c).

(** The declarations of the steps of the job, read off the markers and
    the explicit lists of lines 98-151. *)
Definition declarations (args : Args) : list (list string * list string) :=
  ([ (["parse_clinvar_xml.py"; resolved_xml args], ["clinvar_table_raw.tsv"]);
     ([], []);
     ([reference_genome args; "clinvar_table_raw.tsv"],
      ["clinvar_table_normalized.tsv"]);
     (["join_data.R"; resolved_table args; "clinvar_table_normalized.tsv"],
      ["clinvar_combined.tsv"]);
     (["clinvar_combined.tsv"; "clinvar_combined.tsv"; "clinvar_combined.tsv"],
      ["clinvar_combined_sorted.tsv"; "clinvar_combined_sorted.tsv";
       "clinvar_combined_sorted.tsv"]);
     (["dedup_clinvar.py"; "clinvar_combined_sorted.tsv"], ["clinvar.tsv.gz"]);
     (["clinvar.tsv.gz"], ["clinvar.tsv.gz.tbi"]);
     (["clinvar.tsv.gz"; "clinvar.tsv.gz.tbi"],
      ["../clinvar.tsv"; "../clinvar.tsv.gz"; "../clinvar.tsv.gz.tbi"]);
     (["clinvar_table_to_vcf.py"; "clinvar.tsv"], ["clinvar.vcf.gz"]);
     (["clinvar.vcf.gz"], ["clinvar.vcf.gz.tbi"]);
     (["clinvar.vcf.gz"; "clinvar.vcf.gz.tbi"],
      ["../clinvar.vcf.gz"; "../clinvar.vcf.gz.tbi"]) ]
   ++ match Py.supplied (exac_sites_vcf args) with
      | Some exac =>
          [ ([exac; reference_genome args], [normalized_vcf exac]);
            ([normalized_vcf exac], [(normalized_vcf exac ++ ".tbi")%string]);
            (["add_exac_fields.py"; "clinvar.tsv"; normalized_vcf exac],
             ["clinvar_with_exac.tsv.gz"]);
            (["clinvar_with_exac.tsv.gz"], ["clinvar_with_exac.tsv.gz.tbi"]);
            (["clinvar_with_exac.tsv.gz"; "clinvar_with_exac.tsv.gz.tbi"],
             ["../clinvar_with_exac.tsv.gz"; "../clinvar_with_exac.tsv.gz.tbi"]) ]
      | None => []
      end
   ++ [ (["clinvar.vcf.gz"], ["../clinvar_example_750_rows.vcf"]);
        (["clinvar.tsv.gz"], ["../clinvar_example_750_rows.tsv"]);
        (["clinvar_with_exac.tsv.gz"], ["../clinvar_with_exac_example_750_rows.tsv"]);
        (["clinvar.tsv.gz"; "clinvar.tsv.gz"; "clinvar.tsv.gz"; "master.py"],
         ["clinvar_stats.txt"; "clinvar_stats.txt"; "clinvar_stats.txt";
          "clinvar_stats.txt"; "clinvar_stats.txt"; "clinvar_stats.txt"]);
        (["clinvar_stats.txt"], ["../clinvar_stats.txt"]) ])%list.



(** The file names given on the command line. *)
Definition option_list (o : option string) : list string :=
  match o with Some s => [s] | None => [] end.

Definition file_arguments (args : Args) : list string :=
  (reference_genome args
   :: option_list (Py.supplied (clinvar_xml args))
   ++ option_list (Py.supplied (clinvar_variant_summary_table args)))%list.

(** None of the files the script checks or resolves is [file], under
    whatever name, and no argument value carries an output marker for
    it. *)
Definition unrelated_to (same_file : string -> string -> bool)
           (file : string) (args : Args) : Prop :=
  (forall v, In v (ensured_files args) -> same_file v file = false)
  /\ (forall v, In v (assembly args :: file_arguments args) ->
                ~ marks_output file v).

(* ================================================================== *)
(** * Concrete platforms, environments and states *)
(* ================================================================== *)

Module Scenario.

(** ** A host whose local time is UTC *)

Definition digit (c : ascii) : option Z :=
  let n := nat_of_ascii c in
  if (48 <=? n)%nat && (n <=? 57)%nat then Some (Z.of_nat (n - 48)) else None.

Fixpoint number (acc : Z) (s : string) : option Z :=
  match s with
  | EmptyString => Some acc
  | String c s' =>
      match digit c with
      | Some d => number (acc * 10 + d) s'
      | None => None
      end
  end.

Definition field (s : string) (start len : nat) : option Z :=
  number 0 (String.substring start len s).

Definition is_leap (y : Z) : bool :=
  ((y mod 4 =? 0) && (negb (y mod 100 =? 0) || (y mod 400 =? 0)))%Z.

Definition days_in_month (y m : Z) : Z :=
  (if m =? 2 then (if is_leap y then 29 else 28)
   else if (m =? 4) || (m =? 6) || (m =? 9) || (m =? 11) then 30
   else 31)%Z.

(** Days between 1970-01-01 and the given day of the proleptic
    Gregorian calendar. *)
Definition days_from_civil (y m d : Z) : Z :=
  (let y' := if m <=? 2 then y - 1 else y in
   let era := y' / 400 in
   let yoe := y' - era * 400 in
   let mp := if 2 <? m then m - 3 else m + 9 in
   let doy := (153 * mp + 2) / 5 + d - 1 in
   let doe := yoe * 365 + yoe / 4 - yoe / 100 + doy in
   era * 146097 + doe - 719468)%Z.

Definition no_match : Py.exception :=
  Py.ValueError "time data does not match format '%Y%m%d%H%M%S'".

(** Fourteen digits read as a UTC date; years before 1900 are refused
    by [strftime] of Python 2. *)
Definition utc_mdtm (s : string) : Py.exception + Z :=
  if (String.length s =? 14)%nat then
    match field s 0 4, field s 4 2, field s 6 2,
          field s 8 2, field s 10 2, field s 12 2 with
    | Some y, Some mo, Some d, Some h, Some mi, Some sec =>
        if ((1 <=? mo) && (mo <=? 12) && (1 <=? d) && (d <=? days_in_month y mo)
            && (h <? 24) && (mi <? 60) && (sec <? 60))%Z
        then
          if (1900 <=? y)%Z
          then inr (days_from_civil y mo d * 86400 + h * 3600 + mi * 60 + sec)%Z
          else inl (Py.ValueError "year is before 1900")
        else inl no_match
    | _, _, _, _, _, _ => inl no_match
    end
  else inl no_match.

Definition digit_char (d : Z) : ascii := ascii_of_nat (48 + Z.to_nat d).

Definition pad2 (n : Z) : string :=
  String (digit_char (n / 10)) (String (digit_char (n mod 10)) EmptyString).

Definition pad4 (n : Z) : string := pad2 (n / 100) ++ pad2 (n mod 100).

(** [str(datetime.fromtimestamp(t))] in UTC. *)
Definition utc_datetime (t : Z) : string :=
  (let days := t / 86400 in
   let secs := t mod 86400 in
   let z := days + 719468 in
   let era := z / 146097 in
   let doe := z - era * 146097 in
   let yoe := (doe - doe / 1460 + doe / 36524 - doe / 146096) / 365 in
   let doy := doe - (365 * yoe + yoe / 4 - yoe / 100) in
   let mp := (5 * doy + 2) / 153 in
   let d := doy - (153 * mp + 2) / 5 + 1 in
   let m := if mp <? 10 then mp + 3 else mp - 9 in
   let y := yoe + era * 400 + (if m <=? 2 then 1 else 0) in
   pad4 y ++ "-" ++ pad2 m ++ "-" ++ pad2 d ++ " "
   ++ pad2 (secs / 3600) ++ ":" ++ pad2 (secs mod 3600 / 60) ++ ":"
   ++ pad2 (secs mod 60))%Z.

(** External commands that succeed and write the files their [OUT:]
    markers name, all at one instant. *)
Definition now : Q := inject_Z 1500000000.

Definition obliging (cmd : string) (files : FileSystem) : Z * FileSystem :=
  (0%Z, fold_right (fun o acc => touch o now acc) files
                   (Pypez.marked "OUT:" (PyStr.split cmd))).

(** The runner of this host runs every command it is given. *)
Definition utc : Platform :=
  {| mdtm_seconds := utc_mdtm; str_datetime := utc_datetime; exec := obliging;
     up_to_date := fun _ _ => false |}.

(** ** Servers *)

Definition answering (response : string) : Remote :=
  {| welcome := fun _ => Answer tt;
     login_reply := fun _ => Answer tt;
     command_reply := fun _ _ => Answer response |}.

Definition unreachable : Remote :=
  {| welcome := fun _ => Silence;
     login_reply := fun _ => Silence;
     command_reply := fun _ _ => Silence |}.

(** A machine with every module and tool installed. *)
Definition installed (r : Remote) : Env :=
  {| remote := r;
     find_executable := fun name => Some ("/usr/bin/" ++ name);
     importable := fun _ => true |}.

(** ** Names of files *)



(** ** Tools on the execution path *)

Definition search_path : string := "/usr/local/bin:/usr/bin:/bin".

(** [wget], [Rscript] and [vt] are installed in [/usr/bin]; there is
    no [tabix]. *)
Definition three_tools : FileSystem :=
  touch "/usr/bin/wget" (inject_Z 1400000000)
        (touch "/usr/bin/Rscript" (inject_Z 1400000000)
               (touch "/usr/bin/vt" (inject_Z 1400000000) no_files)).

(** The same, with a file named [tabix] in the working directory. *)
Definition tabix_beside_the_script : FileSystem :=
  touch "tabix" (inject_Z 1400000000) three_tools.

(** The process on such a disk, every module being installed. *)
Definition started_in (files : FileSystem) : Env :=
  process_env unreachable search_path files (fun _ => true).

(** ** States *)

Definition blank : World := mkWorld no_files [] [] [] [] [].

Definition with_files (files : FileSystem) : World :=
  mkWorld files [] [] [] [] [].

(** The reference genome and the ExAC sites file are there, the
    tabix index of the latter is not. *)
Definition unindexed_exac : FileSystem :=
  touch "hg19.fa" (inject_Z 1400000000)
        (touch "ExAC.r0.3.sites.vep.vcf.gz" (inject_Z 1400000000) no_files).

(** The reference genome and the two ClinVar files are there. *)
Definition prefetched_files : FileSystem :=
  touch "hg19.fa" (inject_Z 1400000000)
        (touch "ClinVar.xml.gz" (inject_Z 1400000000)
               (touch "summary.txt.gz" (inject_Z 1400000000) no_files)).

Definition host : string := "ftp.ncbi.nlm.nih.gov".
Definition path : string := "/pub/clinvar/tab_delimited/variant_summary.txt.gz".

(** ** Command lines *)

Definition plain : Args :=
  {| reference_genome := "hg19.fa"; assembly := "GRCh37";
     exac_sites_vcf := None; clinvar_xml := None;
     clinvar_variant_summary_table := None |}.

Definition with_exac : Args :=
  {| reference_genome := "hg19.fa"; assembly := "GRCh37";
     exac_sites_vcf := Some "ExAC.r0.3.sites.vep.vcf.gz"; clinvar_xml := None;
     clinvar_variant_summary_table := None |}.

Definition prefetched : Args :=
  {| reference_genome := "hg19.fa"; assembly := "GRCh37";
     exac_sites_vcf := None; clinvar_xml := Some "ClinVar.xml.gz";
     clinvar_variant_summary_table := Some "summary.txt.gz" |}.

(** An assembly name that is itself an output marker. *)
Definition marker_as_assembly : Args :=
  {| reference_genome := "hg19.fa"; assembly := "OUT:clinvar_with_exac.tsv.gz";
     exac_sites_vcf := None; clinvar_xml := None;
     clinvar_variant_summary_table := None |}.



(** The same table, given behind [./]. *)
Definition table_behind_dot_as_exac_table : Args :=
  {| reference_genome := "hg19.fa"; assembly := "GRCh37";
     exac_sites_vcf := None; clinvar_xml := None;
     clinvar_variant_summary_table := Some "./clinvar_with_exac.tsv.gz" |}.

End Scenario.

(* ================================================================== *)
(** * Strings and formats *)
(* ================================================================== *)

Lemma append_empty_r (s : string) : s ++ EmptyString = s.
Proof. induction s as [|c s IH]; simpl; [reflexivity | now rewrite IH]. Qed.

Lemma append_assoc (a b c : string) : (a ++ b) ++ c = a ++ (b ++ c).
Proof. induction a as [|x a IH]; simpl; [reflexivity | now rewrite IH]. Qed.

Ltac fmt_eval :=
  cbv [fmt fmt_mapping PyStr.format PyStr.format_go PyStr.push PyStr.prepend
       PyStr.other_conversion PyStr.mem_char PyStr.spec_chars PyStr.lookup
       locals Ascii.eqb Bool.eqb String.eqb List.app];
  rewrite ?append_empty_r.

Lemma fmt_retrieving (x : string) :
  fmt "Retrieving last-changed time for %s" [x]
  = ret ("Retrieving last-changed time for " ++ x).
Proof. fmt_eval. reflexivity. Qed.

Lemma fmt_error_retrieving (x e : string) :
  fmt "ERROR: retrieving last-changed time for %s: %s" [x; e]
  = ret ("ERROR: retrieving last-changed time for " ++ x ++ ": " ++ e).
Proof. fmt_eval. reflexivity. Qed.

Lemma fmt_ftp_address (h p : string) :
  fmt "ftp://%s/%s" [h; p] = ret ("ftp://" ++ h ++ "/" ++ p).
Proof. fmt_eval. reflexivity. Qed.

Lemma fmt_wget (a l : string) :
  fmt "wget %s -O OUT:%s" [a; l] = ret ("wget " ++ a ++ " -O OUT:" ++ l).
Proof. fmt_eval. reflexivity. Qed.

Lemma fmt_up_to_date (a d : string) :
  fmt "Local copy of %s is up to date. The remote version hasn't changed since %s" [a; d]
  = ret ("Local copy of " ++ a
         ++ " is up to date. The remote version hasn't changed since " ++ d).
Proof. fmt_eval. reflexivity. Qed.

Lemma wget_command (l h p : string) :
  "wget " ++ ("ftp://" ++ h ++ "/" ++ p) ++ " -O OUT:" ++ l
  = "wget ftp://" ++ h ++ "/" ++ p ++ " -O OUT:" ++ l.
Proof.
  change ("wget ftp://" ++ h ++ "/" ++ p ++ " -O OUT:" ++ l)
    with ("wget " ++ ("ftp://" ++ (h ++ "/" ++ p ++ " -O OUT:" ++ l))).
  f_equal.
  change ("ftp://" ++ h ++ "/" ++ p) with ("ftp://" ++ (h ++ ("/" ++ p))).
  rewrite !append_assoc. reflexivity.
Qed.

(* ================================================================== *)
(** * Running computations *)
(* ================================================================== *)

Lemma bind_ok {A B} (m : M A) (k : A -> M B) w a w1 :
  m w = (Ok a, w1) -> bind m k w = k a w1.
Proof. intros H. unfold bind. now rewrite H. Qed.

Lemma bind_raised {A B} (m : M A) (k : A -> M B) w e w1 :
  m w = (Raised e, w1) -> bind m k w = (Raised e, w1).
Proof. intros H. unfold bind. now rewrite H. Qed.

Lemma bind_exited {A B} (m : M A) (k : A -> M B) w status msg w1 :
  m w = (Exited status msg, w1) -> bind m k w = (Exited status msg, w1).
Proof. intros H. unfold bind. now rewrite H. Qed.

Lemma bind_ret {A B} (a : A) (k : A -> M B) w : bind (ret a) k w = k a w.
Proof. reflexivity. Qed.

Lemma Qgtb_lt (x y : Q) : Qgtb x y = true <-> (y < x)%Q.
Proof. unfold Qgtb, Qlt. apply Z.ltb_lt. Qed.

Lemma Qgtb_le (x y : Q) : Qgtb x y = false <-> (x <= y)%Q.
Proof. unfold Qgtb, Qle. apply Z.ltb_ge. Qed.

Lemma isfile_run (p : string) (w : World) :
  isfile p w = (Ok (is_some (fs w p)), w).
Proof. reflexivity. Qed.

Lemma getmtime_some (p : string) (w : World) (t : Q) :
  fs w p = Some t -> getmtime p w = (Ok t, w).
Proof. intros H. unfold getmtime. now rewrite H. Qed.

Ltac norm :=
  cbn [fst snd fs console net spawned jr job set_fs set_console set_net
       set_spawned set_jr set_job ftp_host_of ftp_timeout is_some].

(* ================================================================== *)
(** * The remote query *)
(* ================================================================== *)

(** The body of the [try]: one connection, opened with the timeout;
    its result is a value or an exception and does not depend on the
    state it starts from. *)
Lemma query_mdtm_run P env host path w :
  exists r events,
    query_mdtm P env host path w
    = (r, set_net (net w ++ Connect host (Some 3%Z) :: events) w)
    /\ settled r
    /\ Forall not_connect events
    /\ (welcome (remote env) host = Silence ->
        r = Raised (Py.NetworkError "timed out"))
    /\ forall w2, fst (query_mdtm P env host path w2) = r.
Proof.
  destruct w as [files cons nt sp q j].
  unfold query_mdtm, FTP_open, FTP_login, FTP_sendcmd, log_net, await, bind, ret, raise.
  norm.
  destruct (welcome (remote env) host) as [[]|e|]; norm.
  - destruct (login_reply (remote env) host) as [[]|e|]; norm.
    + destruct (command_reply (remote env) host ("MDTM " ++ path)) as [resp|e|]; norm.
      * destruct (mdtm_seconds P (PyStr.drop 4 resp)) as [e|t]; norm;
          eexists; exists [Login host; SendCmd host ("MDTM " ++ path)];
            (split; [rewrite <- !app_assoc; reflexivity|]);
            repeat split; try discriminate; repeat constructor.
      * eexists; exists [Login host; SendCmd host ("MDTM " ++ path)];
            (split; [rewrite <- !app_assoc; reflexivity|]);
            repeat split; try discriminate; repeat constructor.
      * eexists; exists [Login host; SendCmd host ("MDTM " ++ path)];
            (split; [rewrite <- !app_assoc; reflexivity|]);
            repeat split; try discriminate; repeat constructor.
    + eexists; exists [Login host];
            (split; [rewrite <- !app_assoc; reflexivity|]);
            repeat split; try discriminate; repeat constructor.
    + eexists; exists [Login host];
            (split; [rewrite <- !app_assoc; reflexivity|]);
            repeat split; try discriminate; repeat constructor.
  - eexists; exists []; (split; [reflexivity|]);
            repeat split; try discriminate; repeat constructor.
  - eexists; exists []; (split; [reflexivity|]);
            repeat split; try discriminate; repeat constructor.
Qed.

Lemma grfct_run P env host path w :
  exists t lines events,
    get_remote_file_changed_time P env host path w
    = (Ok t, mkWorld (fs w) (console w ++ lines)
                     (net w ++ Connect host (Some 3%Z) :: events)
                     (spawned w) (jr w) (job w))
    /\ Forall not_connect events
    /\ (forall t', fst (query_mdtm P env host path w) = Ok t' -> t = t')
    /\ (forall e, fst (query_mdtm P env host path w) = Raised e -> t = 0%Z)
    /\ (welcome (remote env) host = Silence -> t = 0%Z).
Proof.
  unfold get_remote_file_changed_time.
  rewrite fmt_retrieving, bind_ret.
  set (line := "Retrieving last-changed time for " ++ PyStr.path_join host path).
  destruct (query_mdtm_run P env host path (set_console (console w ++ [line]) w))
    as (r & events & Hq & Hr & Hev & Hsilent & Hany).
  unfold bind at 1, print, try_except. rewrite Hq.
  destruct r as [t|e| |]; try contradiction.
  - exists t, [line], events. destruct w; norm.
    repeat split; trivial.
    + intros t' H. rewrite Hany in H. congruence.
    + intros e H. rewrite Hany in H. discriminate.
    + intros H. specialize (Hsilent H). discriminate.
  - rewrite fmt_error_retrieving, bind_ret.
    eexists 0%Z, [line; _], events. destruct w; unfold bind, print, ret; norm.
    rewrite <- app_assoc.
    repeat split; trivial.
    intros t' H. rewrite Hany in H. discriminate.
Qed.

(** What [download_if_changed] does, in one equation: it ends
    normally, the queue grows by the download exactly when the remote
    time is later than the time of the local copy, and nothing else
    changes but the console and the network trace. *)
Lemma download_run P env local_path host path w :
  exists lines events,
    download_if_changed P env local_path host path w
    = (Ok tt,
       mkWorld (fs w) (console w ++ lines) (net w ++ events) (spawned w)
               (if Qgtb (inject_Z (remote_changed_time P env host path w))
                        (local_effective_time (fs w) local_path)
                then jr w ++ [wget_job local_path host path]
                else jr w)
               (job w))
    /\ exists rest, events = Connect host (Some 3%Z) :: rest /\ Forall not_connect rest.
Proof.
  destruct (grfct_run P env host path w)
    as (t & lines & events & Hrun & Hev & _).
  unfold remote_changed_time, local_effective_time, download_if_changed.
  rewrite (bind_ok _ _ _ _ _ Hrun), Hrun.
  rewrite (bind_ok _ _ _ _ _ (isfile_run _ _)). norm.
  destruct (fs w local_path) as [mtime|] eqn:Hlocal; norm.
  - erewrite bind_ok by (apply getmtime_some; exact Hlocal).
    rewrite fmt_ftp_address, bind_ret.
    destruct (Qgtb (inject_Z t) mtime).
    + rewrite fmt_wget, bind_ret, wget_command.
      exists lines, (Connect host (Some 3%Z) :: events).
      split; [reflexivity | eauto].
    + rewrite fmt_up_to_date, bind_ret.
      eexists (lines ++ [_])%list, (Connect host (Some 3%Z) :: events).
      unfold print; norm. rewrite <- app_assoc.
      split; [reflexivity | eauto].
  - rewrite bind_ret, fmt_ftp_address, bind_ret.
    destruct (Qgtb (inject_Z t) 0).
    + rewrite fmt_wget, bind_ret, wget_command.
      exists lines, (Connect host (Some 3%Z) :: events).
      split; [reflexivity | eauto].
    + rewrite fmt_up_to_date, bind_ret.
      eexists (lines ++ [_])%list, (Connect host (Some 3%Z) :: events).
      unfold print; norm. rewrite <- app_assoc.
      split; [reflexivity | eauto].
Qed.

(* ================================================================== *)
(** * The freshness check *)
(* ================================================================== *)

Lemma enqueued_iff_grown (j : Pypez.Job) (w w' : World) (b : bool) :
  jr w' = (if b then jr w ++ [j] else jr w)%list ->
  (enqueued j w w' <-> b = true).
Proof.
  unfold enqueued. intros ->. destruct b; split; trivial; try discriminate.
  intros H. exfalso.
  apply (f_equal (@List.length _)) in H. rewrite length_app in H. simpl in H. lia.
Qed.

(** C1, as the specification words it, fails: the server reports the
    epoch itself as the time of last change (the query succeeds with
    0), there is no local file, and nothing is put on the queue. *)
Lemma freshness_decision_fails_at_epoch :
  ~ freshness_decision Scenario.utc
      (Scenario.installed (Scenario.answering "213 19700101000000"))
      "data.gz" Scenario.host Scenario.path Scenario.blank.
Proof.
  intros (_ & Habsent & _).
  assert (H : enqueued (wget_job "data.gz" Scenario.host Scenario.path)
                       Scenario.blank
                       (snd (download_if_changed Scenario.utc
                               (Scenario.installed (Scenario.answering "213 19700101000000"))
                               "data.gz" Scenario.host Scenario.path Scenario.blank))).
  { apply Habsent; [reflexivity | exists 0%Z; reflexivity]. }
  unfold enqueued in H. vm_compute in H. discriminate H.
Qed.

(** C1, amended: a download is put on the queue exactly when the
    remote time of last change is strictly later than the time of the
    local copy (its mtime, or the epoch when there is no such file).
    So when there is no local file and the query succeeds with a time
    after the epoch a download is queued, and when the remote time is
    before the mtime of the local file none is. *)
Theorem download_iff_remote_newer P env local_path ftp_host ftp_path w :
  let w' := snd (download_if_changed P env local_path ftp_host ftp_path w) in
  let remote := remote_changed_time P env ftp_host ftp_path w in
  (enqueued (wget_job local_path ftp_host ftp_path) w w'
   <-> (local_effective_time (fs w) local_path < inject_Z remote)%Q)
  /\ (fs w local_path = None ->
      query_succeeds P env ftp_host ftp_path w ->
      (0 < remote)%Z ->
      enqueued (wget_job local_path ftp_host ftp_path) w w')
  /\ (forall t, fs w local_path = Some t ->
                (inject_Z remote < t)%Q ->
                jr w' = jr w).
Proof.
  intros w' remote.
  destruct (download_run P env local_path ftp_host ftp_path w)
    as (lines & events & Hrun & _).
  assert (Hjr : jr w' = (if Qgtb (inject_Z remote) (local_effective_time (fs w) local_path)
                         then jr w ++ [wget_job local_path ftp_host ftp_path]
                         else jr w)%list).
  { unfold w'. rewrite Hrun. reflexivity. }
  assert (Hiff := enqueued_iff_grown _ _ _ _ Hjr).
  split; [| split].
  - rewrite Hiff. apply Qgtb_lt.
  - intros Habsent _ Hpos. apply Hiff, Qgtb_lt.
    unfold local_effective_time. rewrite Habsent.
    unfold Qlt. simpl. lia.
  - intros t Hlocal Holder. rewrite Hjr.
    replace (Qgtb (inject_Z remote) (local_effective_time (fs w) local_path))
      with false; [reflexivity|].
    symmetry. apply Qgtb_le. unfold local_effective_time. rewrite Hlocal.
    apply Qlt_le_weak, Holder.
Qed.

Lemma download_iff_remote_newer_witness :
  enqueued (wget_job "data.gz" Scenario.host Scenario.path) Scenario.blank
           (snd (download_if_changed Scenario.utc
                   (Scenario.installed (Scenario.answering "213 20160102030405"))
                   "data.gz" Scenario.host Scenario.path Scenario.blank)).
Proof.
  apply (proj1 (proj2 (download_iff_remote_newer Scenario.utc
                         (Scenario.installed (Scenario.answering "213 20160102030405"))
                         "data.gz" Scenario.host Scenario.path Scenario.blank))).
  - reflexivity.
  - exists 1451703845%Z. reflexivity.
  - reflexivity.
Defined.

(** C2, as the specification words it, fails: the server cannot be
    reached, the local file carries an mtime before the epoch, and the
    sentinel 0 is later than that mtime, so a download is queued. *)
Lemma failure_enqueues_for_old_file :
  ~ failure_means_no_action Scenario.utc
      (Scenario.installed Scenario.unreachable)
      "data.gz" Scenario.host Scenario.path
      (Scenario.with_files (touch "data.gz" (-5 # 1) no_files)).
Proof.
  intros H. destruct H as [_ H].
  - exists (Py.NetworkError "timed out"). reflexivity.
  - vm_compute in H. discriminate H.
Qed.

(** C2, amended: [get_remote_file_changed_time] never raises; when the
    query fails it returns the sentinel 0, and then
    [download_if_changed] ends normally and queues nothing provided
    the local file is absent or its mtime is not before the epoch. *)
Theorem failed_query_returns_sentinel P env local_path ftp_host ftp_path w :
  query_fails P env ftp_host ftp_path w ->
  (forall w0, exists t w1,
      get_remote_file_changed_time P env ftp_host ftp_path w0 = (Ok t, w1))
  /\ (exists w1, get_remote_file_changed_time P env ftp_host ftp_path w = (Ok 0%Z, w1))
  /\ ((0 <= local_effective_time (fs w) local_path)%Q ->
      fst (download_if_changed P env local_path ftp_host ftp_path w) = Ok tt
      /\ jr (snd (download_if_changed P env local_path ftp_host ftp_path w)) = jr w).
Proof.
  intros (e & Hfail).
  destruct (grfct_run P env ftp_host ftp_path w)
    as (t & lines & events & Hrun & _ & _ & Hzero & _).
  specialize (Hzero e Hfail). subst t.
  split; [| split].
  - intros w0. destruct (grfct_run P env ftp_host ftp_path w0)
      as (t & l & ev & H & _). eauto.
  - eauto.
  - intros Hlocal.
    destruct (download_run P env local_path ftp_host ftp_path w)
      as (l & ev & Hdl & _).
    rewrite Hdl. split; [reflexivity|]. norm.
    unfold remote_changed_time. rewrite Hrun. norm.
    replace (Qgtb (inject_Z 0) (local_effective_time (fs w) local_path))
      with false; [reflexivity|].
    symmetry. apply Qgtb_le. exact Hlocal.
Qed.

Lemma failed_query_returns_sentinel_witness :
  exists w1,
    get_remote_file_changed_time Scenario.utc
      (Scenario.installed Scenario.unreachable) Scenario.host Scenario.path
      Scenario.blank = (Ok 0%Z, w1).
Proof.
  apply (proj1 (proj2 (failed_query_returns_sentinel Scenario.utc
                         (Scenario.installed Scenario.unreachable)
                         "data.gz" Scenario.host Scenario.path Scenario.blank
                         (ex_intro _ (Py.NetworkError "timed out") eq_refl)))).
Defined.

(** C7: neither [get_remote_file_changed_time] nor
    [download_if_changed] changes a file or starts a process; they
    write to the console and talk to the server, and the sequential
    job is left alone. *)
Theorem freshness_check_has_no_local_effect P env local_path ftp_host ftp_path w :
  no_local_mutation w (snd (get_remote_file_changed_time P env ftp_host ftp_path w))
  /\ jr (snd (get_remote_file_changed_time P env ftp_host ftp_path w)) = jr w
  /\ job (snd (get_remote_file_changed_time P env ftp_host ftp_path w)) = job w
  /\ no_local_mutation w (snd (download_if_changed P env local_path ftp_host ftp_path w))
  /\ job (snd (download_if_changed P env local_path ftp_host ftp_path w)) = job w.
Proof.
  destruct (grfct_run P env ftp_host ftp_path w)
    as (t & lines & events & Hrun & _).
  destruct (download_run P env local_path ftp_host ftp_path w)
    as (l & ev & Hdl & _).
  rewrite Hrun, Hdl. unfold no_local_mutation. norm.
  repeat split; eauto.
Qed.

(** C9: every call of [get_remote_file_changed_time] opens exactly one
    connection, with a timeout of 3 seconds, and comes back with a
    value; if the server never answers, that value is 0. *)
Theorem remote_query_is_bounded P env ftp_host ftp_path w :
  exists t w' events,
    get_remote_file_changed_time P env ftp_host ftp_path w = (Ok t, w')
    /\ net w' = (net w ++ Connect ftp_host (Some 3%Z) :: events)%list
    /\ Forall not_connect events
    /\ (welcome (remote env) ftp_host = Silence -> t = 0%Z).
Proof.
  destruct (grfct_run P env ftp_host ftp_path w)
    as (t & lines & events & Hrun & Hev & _ & _ & Hsilent).
  exists t. eexists. exists events. split; [exact Hrun|]. norm. auto.
Qed.

Lemma remote_query_is_bounded_witness :
  exists w',
    get_remote_file_changed_time Scenario.utc
      (Scenario.installed Scenario.unreachable) Scenario.host Scenario.path
      Scenario.blank = (Ok 0%Z, w').
Proof.
  destruct (remote_query_is_bounded Scenario.utc
              (Scenario.installed Scenario.unreachable) Scenario.host
              Scenario.path Scenario.blank)
    as (t & w' & events & Hrun & _ & _ & Hsilent).
  exists w'. rewrite <- (Hsilent eq_refl). exact Hrun.
Defined.

(** Without the timeout the same connection would never come back. *)
Example connection_without_timeout_hangs :
  fst (FTP_open (Scenario.installed Scenario.unreachable) Scenario.host None
                Scenario.blank) = Hung.
Proof. reflexivity. Qed.

(* ================================================================== *)
(** * Start-up checks *)
(* ================================================================== *)

Lemma fmt_command_not_found (x : string) :
  fmt "Command %s not found, see README" [x]
  = ret ("Command " ++ x ++ " not found, see README").
Proof. fmt_eval. reflexivity. Qed.

Lemma fmt_module_not_installed (x : string) :
  fmt "ERROR: Python module not installed. %s. Please run 'pip install -r requirements.txt' " [x]
  = ret ("ERROR: Python module not installed. " ++ x
         ++ ". Please run 'pip install -r requirements.txt' ").
Proof. fmt_eval. reflexivity. Qed.

Lemma check_executables_found env names w :
  (forall name, In name names -> Py.truthy (find_executable env name) = true) ->
  check_executables env names w = (Ok tt, w).
Proof.
  induction names as [|name names IH]; intros H; simpl.
  - reflexivity.
  - rewrite fmt_command_not_found, bind_ret.
    rewrite (H name (or_introl eq_refl)). simpl assert_. rewrite bind_ret.
    apply IH. intros n Hn. apply H. now right.
Qed.

(** The first tool that is not found is the one the assertion names. *)
Lemma check_executables_missing env names w :
  (exists name, In name names /\ Py.truthy (find_executable env name) = false) ->
  exists name,
    In name names /\ Py.truthy (find_executable env name) = false
    /\ check_executables env names w
       = (Raised (Py.AssertionError ("Command " ++ name ++ " not found, see README")), w).
Proof.
  induction names as [|first names IH]; intros (name & Hin & Hmiss).
  - destruct Hin.
  - simpl. rewrite fmt_command_not_found, bind_ret.
    destruct (Py.truthy (find_executable env first)) eqn:Hfirst.
    + simpl assert_. rewrite bind_ret.
      destruct Hin as [-> | Hin]; [congruence|].
      destruct IH as (n & Hn & Hm & Hrun); [eauto|].
      exists n. repeat split; trivial. now right.
    + exists first. repeat split; trivial. now left.
Qed.

Lemma try_ok {A} (body : M A) (handler : Py.exception -> M A) w a w1 :
  body w = (Ok a, w1) -> try_except body handler w = (Ok a, w1).
Proof. intros H. unfold try_except. now rewrite H. Qed.

Lemma try_raised {A} (body : M A) (handler : Py.exception -> M A) w e w1 :
  body w = (Raised e, w1) -> try_except body handler w = handler e w1.
Proof. intros H. unfold try_except. now rewrite H. Qed.

(** Lines 14-19 in the three ways they can go. *)
Lemma import_block_run env w :
  let body := (import_ env "pypez" ;; import_ env "pysam" ;; import_ env "pandas") in
  (body w = (Ok tt, w)
   /\ importable env "pypez" = true /\ importable env "pysam" = true
   /\ importable env "pandas" = true)
  \/ exists name,
       In name ["pypez"; "pysam"; "pandas"]
       /\ importable env name = false
       /\ body w = (Raised (Py.ImportError name), w).
Proof.
  unfold import_. simpl.
  destruct (importable env "pypez") eqn:E1;
    [| right; exists "pypez"; simpl; auto].
  rewrite bind_ret.
  destruct (importable env "pysam") eqn:E2;
    [| right; exists "pysam"; simpl; auto].
  rewrite bind_ret.
  destruct (importable env "pandas") eqn:E3;
    [| right; exists "pandas"; simpl; auto].
  left. auto.
Qed.

Lemma check_dependencies_present env w :
  (forall name, ~ missing_dependency env name) ->
  check_dependencies env w = (Ok tt, w).
Proof.
  intros H.
  assert (Hmod : forall name, In name required_modules -> importable env name = true).
  { intros name Hin. destruct (importable env name) eqn:E; trivial.
    exfalso. apply (H name). left. auto. }
  assert (Hexe : forall name, In name required_executables ->
                              Py.truthy (find_executable env name) = true).
  { intros name Hin. destruct (Py.truthy (find_executable env name)) eqn:E; trivial.
    exfalso. apply (H name). right. auto. }
  unfold check_dependencies.
  unfold import_ at 1. rewrite (Hmod "configargparse"), bind_ret by (simpl; auto).
  destruct (import_block_run env w) as [(Hbody & _) | (name & Hin & Hmiss & _)].
  - erewrite bind_ok by (eapply try_ok; exact Hbody).
    apply check_executables_found, Hexe.
  - rewrite Hmod in Hmiss; [discriminate|].
    simpl in *. tauto.
Qed.

Lemma check_dependencies_missing env w :
  (exists name, missing_dependency env name) ->
  exists name r,
    missing_dependency env name
    /\ check_dependencies env w = (r, w)
    /\ reports r name
    /\ ((exists e, r = Raised e) \/ (exists msg, r = Exited 1 msg)).
Proof.
  intros Hmissing.
  unfold check_dependencies. unfold import_ at 1.
  destruct (importable env "configargparse") eqn:E0.
  2:{ exists "configargparse". eexists. split; [left; simpl; auto|].
      split; [reflexivity|]. split; [left; reflexivity | left; eauto]. }
  rewrite bind_ret.
  destruct (import_block_run env w)
    as [(Hbody & E1 & E2 & E3) | (name & Hin & Hmiss & Hbody)].
  - erewrite bind_ok by (eapply try_ok; exact Hbody).
    assert (Htool : exists name, In name required_executables
                                 /\ Py.truthy (find_executable env name) = false).
    { destruct Hmissing as (name & [[Hin Hmod] | Htool]); [|eauto].
      exfalso. simpl in Hin.
      destruct Hin as [<- | [<- | [<- | [<- | []]]]]; congruence. }
    destruct (check_executables_missing env required_executables w Htool)
      as (name & Hin & Hmiss & Hrun).
    exists name. eexists. split; [right; auto|].
    split; [exact Hrun|]. split; [right; right; reflexivity | left; eauto].
  - exists name. eexists. split; [left; simpl in *; tauto|].
    split; [| split; [right; left; reflexivity | right; eauto]].
    erewrite bind_exited; [reflexivity|].
    erewrite try_raised by exact Hbody.
    unfold Py.str_exception.
    rewrite fmt_module_not_installed, bind_ret. unfold sys_exit.
    reflexivity.
Qed.

(** A script that stops in the start-up checks has done nothing
    else. *)
Lemma main_stops_with_dependencies P env args w r :
  check_dependencies env w = (r, w) ->
  (exists e, r = Raised e) \/ (exists msg, r = Exited 1 msg) ->
  main P env args w = (r, w).
Proof.
  intros Hrun [(e & ->) | (msg & ->)]; unfold main, configure.
  - erewrite bind_raised; [reflexivity|].
    erewrite bind_raised; [reflexivity | exact Hrun].
  - erewrite bind_exited; [reflexivity|].
    erewrite bind_exited; [reflexivity | exact Hrun].
Qed.

(** A missing dependency, as the script sees it, stops the script
    with a report that names a missing one, and the state of the world
    is untouched. *)
Lemma missing_dependency_stops P env args w :
  (exists name, missing_dependency env name) ->
  exists name,
    missing_dependency env name
    /\ reports (fst (main P env args w)) name
    /\ snd (main P env args w) = w.
Proof.
  intros Hmissing.
  destruct (check_dependencies_missing env w Hmissing)
    as (name & r & Hname & Hrun & Hreport & Hstop).
  exists name. rewrite (main_stops_with_dependencies P env args w r Hrun Hstop).
  auto.
Qed.

(** ** The tools as [find_executable] looks for them *)

Lemma path_join_is_not_empty (dir name : string) :
  name <> EmptyString -> PyStr.path_join dir name <> EmptyString.
Proof.
  intros Hname. unfold PyStr.path_join.
  destruct (PyStr.startswith name "/"); [exact Hname|].
  destruct ((dir =? EmptyString) || PyStr.endswith dir "/").
  - destruct dir; cbn [append]; [exact Hname | discriminate].
  - destruct dir; cbn [append]; discriminate.
Qed.

Lemma truthy_some (s : string) : s <> EmptyString -> Py.truthy (Some s) = true.
Proof.
  intros Hs. unfold Py.truthy, Py.supplied.
  destruct (s =? EmptyString) eqn:E; [|reflexivity].
  apply String.eqb_eq in E. contradiction.
Qed.

(** The lookup fails exactly when the name is no file of the working
    directory and no directory of the path holds such a file. *)
Lemma find_executable_fails_iff (path : string) (files : FileSystem) (tool : string) :
  tool <> EmptyString ->
  Py.truthy (Distutils.find_executable path files tool) = false
  <-> files tool = None /\ ~ on_execution_path path files tool.
Proof.
  intros Htool. unfold Distutils.find_executable, on_execution_path.
  destruct (files tool) as [t|] eqn:Hhere; cbn [is_some].
  - rewrite (truthy_some tool Htool). split; [discriminate | intros [H _]; discriminate H].
  - destruct (find _ _) as [f|] eqn:Hfind.
    + apply find_some in Hfind. destruct Hfind as [Hin Hfile].
      apply in_map_iff in Hin. destruct Hin as (dir & <- & Hdir).
      rewrite (truthy_some _ (path_join_is_not_empty dir tool Htool)).
      split; [discriminate|]. intros [_ H]. elim H. eauto.
    + split; [|reflexivity]. intros _. split; [reflexivity|].
      intros (dir & Hdir & Hfile).
      pose proof (find_none _ _ Hfind (PyStr.path_join dir tool)) as Hnone.
      cbv beta in Hnone. rewrite Hfile in Hnone.
      discriminate Hnone. apply in_map_iff. eauto.
Qed.

Lemma required_executables_are_named (name : string) :
  In name required_executables -> name <> EmptyString.
Proof.
  intros Hin. cbn [required_executables In] in Hin.
  destruct Hin as [<- | [<- | [<- | [<- | []]]]]; discriminate.
Qed.

Lemma missing_dependency_of_process r path files modules name :
  missing_dependency (process_env r path files modules) name
  <-> unfindable path files modules name.
Proof.
  unfold missing_dependency, unfindable, process_env.
  cbn [find_executable importable].
  split; (intros [H | [Hin H]]; [left; exact H | right; split; [exact Hin|]]);
    apply (find_executable_fails_iff path files name
             (required_executables_are_named name Hin)); exact H.
Qed.

(** C4, as the specification words it, fails: a file named [tabix]
    in the working directory satisfies line 21 although no directory
    of the execution path holds [tabix]; the script passes the check
    of the tools and goes on to the input files. *)
Lemma tool_beside_the_script_passes_the_check :
  In "tabix" required_executables
  /\ ~ on_execution_path Scenario.search_path Scenario.tabix_beside_the_script "tabix"
  /\ check_dependencies (Scenario.started_in Scenario.tabix_beside_the_script)
                        (Scenario.with_files Scenario.tabix_beside_the_script)
     = (Ok tt, Scenario.with_files Scenario.tabix_beside_the_script)
  /\ main Scenario.utc (Scenario.started_in Scenario.tabix_beside_the_script)
          Scenario.plain (Scenario.with_files Scenario.tabix_beside_the_script)
     = (Exited 2 "genome reference: file not found: hg19.fa",
        Scenario.with_files Scenario.tabix_beside_the_script)
  /\ forall name,
       ~ reports (fst (main Scenario.utc
                            (Scenario.started_in Scenario.tabix_beside_the_script)
                            Scenario.plain
                            (Scenario.with_files Scenario.tabix_beside_the_script)))
                 name.
Proof.
  assert (Hcheck : check_dependencies
                     (Scenario.started_in Scenario.tabix_beside_the_script)
                     (Scenario.with_files Scenario.tabix_beside_the_script)
                   = (Ok tt, Scenario.with_files Scenario.tabix_beside_the_script)).
  { apply check_dependencies_present. intros name Hmiss.
    apply missing_dependency_of_process in Hmiss.
    destruct Hmiss as [[_ H] | (Hin & Hhere & Hpath)]; [discriminate H|].
    cbn [required_executables In] in Hin.
    destruct Hin as [<- | [<- | [<- | [<- | []]]]];
      try discriminate Hhere;
      apply Hpath; exists "/usr/bin"; (split; [vm_compute; auto | reflexivity]). }
  assert (Hmain : main Scenario.utc
                       (Scenario.started_in Scenario.tabix_beside_the_script)
                       Scenario.plain
                       (Scenario.with_files Scenario.tabix_beside_the_script)
                  = (Exited 2 "genome reference: file not found: hg19.fa",
                     Scenario.with_files Scenario.tabix_beside_the_script)).
  { unfold main, configure.
    erewrite bind_exited; [reflexivity|].
    rewrite (bind_ok _ _ _ _ _ Hcheck).
    erewrite bind_exited; [reflexivity|].
    vm_compute. reflexivity. }
  split; [cbn; auto|]. split.
  - intros (dir & Hdir & Hfile). vm_compute in Hdir.
    destruct Hdir as [<- | [<- | [<- | []]]]; discriminate Hfile.
  - split; [exact Hcheck|]. split; [exact Hmain|].
    intros name. rewrite Hmain. cbn [fst].
    intros [H | [H | H]]; discriminate H.
Qed.

(** C4, amended: when one of the tools [wget], [Rscript], [tabix],
    [vt] is neither a file of the working directory nor a file of a
    directory of [PATH], or one of the modules cannot be imported, the
    script stops with a report that names such a tool or module, and
    the state of the world is untouched: no query, no queued or
    started command, no file changed. *)
Theorem unfindable_dependency_stops_the_script P r path modules args w :
  (exists name, unfindable path (fs w) modules name) ->
  exists name,
    unfindable path (fs w) modules name
    /\ reports (fst (main P (process_env r path (fs w) modules) args w)) name
    /\ snd (main P (process_env r path (fs w) modules) args w) = w.
Proof.
  intros (name & Hname).
  destruct (missing_dependency_stops P (process_env r path (fs w) modules) args w)
    as (found & Hfound & Hreport & Hstate).
  - exists name. apply missing_dependency_of_process. exact Hname.
  - exists found. split; [|split; assumption].
    apply (missing_dependency_of_process r path (fs w) modules found). exact Hfound.
Qed.

Lemma unfindable_dependency_stops_the_script_witness :
  exists name,
    unfindable Scenario.search_path Scenario.three_tools (fun _ => true) name
    /\ reports (fst (main Scenario.utc (Scenario.started_in Scenario.three_tools)
                          Scenario.plain (Scenario.with_files Scenario.three_tools)))
               name
    /\ snd (main Scenario.utc (Scenario.started_in Scenario.three_tools)
                 Scenario.plain (Scenario.with_files Scenario.three_tools))
       = Scenario.with_files Scenario.three_tools.
Proof.
  apply (unfindable_dependency_stops_the_script Scenario.utc Scenario.unreachable
           Scenario.search_path (fun _ => true) Scenario.plain
           (Scenario.with_files Scenario.three_tools)).
  exists "tabix". right. split; [cbn; auto|]. split; [reflexivity|].
  intros (dir & Hdir & Hfile). vm_compute in Hdir.
  destruct Hdir as [<- | [<- | [<- | []]]]; discriminate Hfile.
Defined.

(* ================================================================== *)
(** * Validation of the inputs *)
(* ================================================================== *)

Lemma stateless_ret {A} (a : A) : stateless (ret a).
Proof. intros w. reflexivity. Qed.

Lemma stateless_raise {A} (e : Py.exception) : stateless (@raise A e).
Proof. intros w. reflexivity. Qed.

Lemma stateless_parser_error {A} (msg : string) : stateless (@parser_error A msg).
Proof. intros w. reflexivity. Qed.

Lemma stateless_sys_exit {A} (msg : string) : stateless (@sys_exit A msg).
Proof. intros w. reflexivity. Qed.

Lemma stateless_isfile (p : string) : stateless (isfile p).
Proof. intros w. reflexivity. Qed.

Lemma stateless_fmt (f : string) (args : list string) : stateless (fmt f args).
Proof. intros w. unfold fmt. now destruct (PyStr.format _ _). Qed.

Lemma stateless_assert (cond : bool) (msg : string) : stateless (assert_ cond msg).
Proof. intros w. now destruct cond. Qed.

Lemma stateless_import env (name : string) : stateless (import_ env name).
Proof. intros w. unfold import_. now destruct (importable env name). Qed.

Lemma stateless_bind {A B} (m : M A) (k : A -> M B) :
  stateless m -> (forall a, stateless (k a)) -> stateless (bind m k).
Proof.
  intros Hm Hk w. unfold bind. specialize (Hm w).
  destruct (m w) as [[a|e|status msg|] w1]; simpl in Hm; subst w1; trivial.
  apply Hk.
Qed.

Lemma stateless_try {A} (body : M A) (handler : Py.exception -> M A) :
  stateless body -> (forall e, stateless (handler e)) ->
  stateless (try_except body handler).
Proof.
  intros Hm Hk w. unfold try_except. specialize (Hm w).
  destruct (body w) as [[a|e|status msg|] w1]; simpl in Hm; subst w1; trivial.
  apply Hk.
Qed.

Create HintDb frames.
#[export] Hint Resolve stateless_ret stateless_raise stateless_parser_error
  stateless_sys_exit stateless_isfile stateless_fmt stateless_assert
  stateless_import : frames.

Ltac frame :=
  repeat first
    [ solve [auto with frames]
    | apply stateless_bind; [| intros ?]
    | apply stateless_try; [| intros ?]
    | match goal with
      | |- stateless (if ?b then _ else _) => destruct b
      | |- stateless (match ?x with _ => _ end) => destruct x
      end ].

Lemma check_dependencies_stateless env : stateless (check_dependencies env).
Proof.
  unfold check_dependencies. frame.
Qed.

Lemma check_inputs_stateless args : stateless (check_inputs args).
Proof. unfold check_inputs, check_exac. frame. Qed.

(** A stateless step either hands a value to what follows or ends the
    whole computation on the spot. *)
Lemma bind_stateless {A B} (m : M A) (k : A -> M B) w :
  stateless m ->
  (exists a, m w = (Ok a, w) /\ bind m k w = k a w)
  \/ (snd (bind m k w) = w /\ forall b, fst (bind m k w) <> Ok b).
Proof.
  intros Hm. specialize (Hm w). unfold bind.
  destruct (m w) as [[a|e|status msg|] w1]; simpl in Hm; subst w1.
  - left. eauto.
  - right. split; [reflexivity | discriminate].
  - right. split; [reflexivity | discriminate].
  - right. split; [reflexivity | discriminate].
Qed.

(** C3 at the failing input: the ExAC sites file is given and exists
    but has no [.tbi] index.  The format of the error message is
    itself malformed, so instead of [p.error] with its message the
    script ends in an uncaught [ValueError] about the format
    character. *)
Theorem missing_tabix_index_raises_ValueError :
  main Scenario.utc (Scenario.installed Scenario.unreachable)
       Scenario.with_exac (Scenario.with_files Scenario.unindexed_exac)
  = (Raised (Py.UnsupportedFormatCharacter "{"%char 40),
     Scenario.with_files Scenario.unindexed_exac).
Proof. vm_compute. reflexivity. Qed.

(** The same on every command line: a missing index never reaches
    [p.error]. *)
Lemma check_exac_missing_index args w exac :
  Py.supplied (exac_sites_vcf args) = Some exac ->
  is_some (fs w exac) = true ->
  fs w (exac ++ ".tbi") = None ->
  check_exac args w = (Raised (Py.UnsupportedFormatCharacter "{"%char 40), w).
Proof.
  intros Hexac Hfile Hindex. unfold check_exac. rewrite Hexac.
  rewrite (bind_ok _ _ _ _ _ (isfile_run _ _)), Hfile. simpl negb. cbv iota.
  rewrite bind_ret.
  rewrite (bind_ok _ _ _ _ _ (isfile_run _ _)), Hindex. reflexivity.
Qed.

(** The sibling check of the file itself does what the index check
    was meant to do. *)
Lemma check_exac_missing_file args w exac :
  Py.supplied (exac_sites_vcf args) = Some exac ->
  fs w exac = None ->
  check_exac args w = (Exited 2 ("ExAC sites vcf: file not found: " ++ exac), w).
Proof.
  intros Hexac Hfile. unfold check_exac. rewrite Hexac.
  rewrite (bind_ok _ _ _ _ _ (isfile_run _ _)), Hfile. simpl negb. cbv iota.
  erewrite bind_exited; [reflexivity|].
  fmt_eval. reflexivity.
Qed.

(* ================================================================== *)
(** * Sources given on the command line *)
(* ================================================================== *)

Lemma bind_ext {A B} (m : M A) (k1 k2 : A -> M B) w :
  (forall a w', k1 a w' = k2 a w') -> bind m k1 w = bind m k2 w.
Proof. intros H. unfold bind. destruct (m w) as [[a|e|status msg|] w1]; auto. Qed.

Lemma check_executables_ext env1 env2 names w :
  (forall name, find_executable env1 name = find_executable env2 name) ->
  check_executables env1 names w = check_executables env2 names w.
Proof.
  intros H. revert w. induction names as [|name names IH]; intros w; simpl.
  - reflexivity.
  - rewrite H. apply bind_ext. intros msg w1. apply bind_ext. intros _ w2. apply IH.
Qed.

Lemma check_dependencies_ext env1 env2 w :
  (forall name, find_executable env1 name = find_executable env2 name) ->
  (forall name, importable env1 name = importable env2 name) ->
  check_dependencies env1 w = check_dependencies env2 w.
Proof.
  intros Hexe Hmod. unfold check_dependencies, import_. rewrite !Hmod.
  apply bind_ext. intros _ w1. apply bind_ext. intros _ w2.
  apply check_executables_ext, Hexe.
Qed.

(** With both files given, resolving the sources does not look at the
    environment at all. *)
Lemma resolve_sources_ext P env1 env2 args :
  Py.truthy (clinvar_xml args) = true ->
  Py.truthy (clinvar_variant_summary_table args) = true ->
  resolve_sources P env1 args = resolve_sources P env2 args.
Proof.
  unfold Py.truthy, resolve_sources, resolve_clinvar_xml, resolve_variant_summary_table.
  destruct (Py.supplied (clinvar_xml args)); [|discriminate].
  destruct (Py.supplied (clinvar_variant_summary_table args)); [|discriminate].
  reflexivity.
Qed.

Lemma resolve_sources_prefetched P env args w :
  Py.truthy (clinvar_xml args) = true ->
  Py.truthy (clinvar_variant_summary_table args) = true ->
  exists r,
    resolve_sources P env args w = (r, set_jr [] w)
    /\ forall sources, r = Ok sources ->
                       sources = (resolved_xml args, resolved_table args).
Proof.
  unfold Py.truthy, resolve_sources, resolve_clinvar_xml,
    resolve_variant_summary_table, resolved_xml, resolved_table.
  destruct (Py.supplied (clinvar_xml args)) as [xml|]; [|discriminate].
  destruct (Py.supplied (clinvar_variant_summary_table args)) as [table|];
    [|discriminate].
  intros _ _.
  unfold Runner.new_runner, isfile, parser_error, fmt, bind, ret, raise.
  cbn [fst snd fs set_jr negb].
  repeat match goal with
         | |- context [is_some ?x] => destruct (is_some x); cbn [fst snd fs set_jr negb]
         | |- context [PyStr.endswith ?a ?b] =>
             destruct (PyStr.endswith a b); cbn [fst snd fs set_jr negb]
         | |- context [PyStr.format ?a ?b] =>
             destruct (PyStr.format a b); cbn [fst snd fs set_jr negb]
         end;
    eexists; (split; [reflexivity|]); intros sources H;
    try discriminate H; now inversion H.
Qed.

Lemma configure_prefetched P env args w :
  Py.truthy (clinvar_xml args) = true ->
  Py.truthy (clinvar_variant_summary_table args) = true ->
  net (snd (configure P env args w)) = net w
  /\ forall sources w',
       configure P env args w = (Ok sources, w') ->
       jr w' = [] /\ sources = (resolved_xml args, resolved_table args).
Proof.
  intros Hxml Htable. unfold configure.
  destruct (bind_stateless (check_dependencies env)
              (fun _ => check_inputs args ;; resolve_sources P env args) w
              (check_dependencies_stateless env))
    as [(a & _ & ->) | (Hsnd & Hfst)].
  - destruct (bind_stateless (check_inputs args)
                (fun _ => resolve_sources P env args) w
                (check_inputs_stateless args))
      as [(b & _ & ->) | (Hsnd & Hfst)].
    + destruct (resolve_sources_prefetched P env args w Hxml Htable)
        as (r & -> & Hr).
      split; [reflexivity|].
      intros sources w' H. inversion H; subst. auto.
    + rewrite Hsnd. split; [reflexivity|].
      intros sources w' H. rewrite H in Hfst. now elim (Hfst sources).
  - rewrite Hsnd. split; [reflexivity|].
    intros sources w' H. rewrite H in Hfst. now elim (Hfst sources).
Qed.

(** C10: when both [--clinvar-xml] and
    [--clinvar-variant-summary-table] are given, two environments that
    differ only in what the FTP server would answer give the same run,
    from configuration to the end of the script; no connection is
    opened, and when configuration completes the sources are the two
    given files and the queue handed to the first [jr.run()] is
    empty. *)
Theorem prefetched_sources_ignore_remote P env1 env2 args w :
  Py.truthy (clinvar_xml args) = true ->
  Py.truthy (clinvar_variant_summary_table args) = true ->
  (forall name, find_executable env1 name = find_executable env2 name) ->
  (forall name, importable env1 name = importable env2 name) ->
  configure P env1 args w = configure P env2 args w
  /\ main P env1 args w = main P env2 args w
  /\ net (snd (configure P env1 args w)) = net w
  /\ forall sources w',
       configure P env1 args w = (Ok sources, w') ->
       jr w' = [] /\ sources = (resolved_xml args, resolved_table args).
Proof.
  intros Hxml Htable Hexe Hmod.
  assert (Hconf : configure P env1 args w = configure P env2 args w).
  { unfold configure.
    rewrite (resolve_sources_ext P env1 env2 args Hxml Htable).
    unfold bind at 1 3. now rewrite (check_dependencies_ext env1 env2 w Hexe Hmod). }
  split; [exact Hconf|]. split.
  - unfold main. unfold bind at 1 5. now rewrite Hconf.
  - apply configure_prefetched; assumption.
Qed.

Lemma prefetched_sources_ignore_remote_witness :
  configure Scenario.utc (Scenario.installed Scenario.unreachable)
            Scenario.prefetched (Scenario.with_files Scenario.prefetched_files)
  = configure Scenario.utc
              (Scenario.installed (Scenario.answering "213 20160102030405"))
              Scenario.prefetched (Scenario.with_files Scenario.prefetched_files)
  /\ jr (snd (configure Scenario.utc (Scenario.installed Scenario.unreachable)
                        Scenario.prefetched
                        (Scenario.with_files Scenario.prefetched_files))) = [].
Proof.
  destruct (prefetched_sources_ignore_remote Scenario.utc
              (Scenario.installed Scenario.unreachable)
              (Scenario.installed (Scenario.answering "213 20160102030405"))
              Scenario.prefetched (Scenario.with_files Scenario.prefetched_files)
              eq_refl eq_refl (fun _ => eq_refl) (fun _ => eq_refl))
    as (Hsame & _ & _ & Hqueue).
  split; [exact Hsame|].
  apply (Hqueue ("ClinVar.xml.gz", "summary.txt.gz")
                (snd (configure Scenario.utc (Scenario.installed Scenario.unreachable)
                                Scenario.prefetched
                                (Scenario.with_files Scenario.prefetched_files)))).
  reflexivity.
Defined.

(* ================================================================== *)
(** * Nothing runs before the first [jr.run()] *)
(* ================================================================== *)

Lemma no_local_mutation_refl (w : World) : no_local_mutation w w.
Proof.
  repeat split; try (exists []; now rewrite app_nil_r).
Qed.

Lemma no_local_mutation_trans (w1 w2 w3 : World) :
  no_local_mutation w1 w2 -> no_local_mutation w2 w3 -> no_local_mutation w1 w3.
Proof.
  intros (Hf1 & Hs1 & (l1 & Hc1) & (e1 & Hn1)) (Hf2 & Hs2 & (l2 & Hc2) & (e2 & Hn2)).
  repeat split; try congruence.
  - exists (l1 ++ l2)%list. now rewrite Hc2, Hc1, app_assoc.
  - exists (e1 ++ e2)%list. now rewrite Hn2, Hn1, app_assoc.
Qed.

Lemma quiet_of_stateless {A} (m : M A) : stateless m -> quiet m.
Proof. intros H w. rewrite H. apply no_local_mutation_refl. Qed.

Lemma quiet_bind {A B} (m : M A) (k : A -> M B) :
  quiet m -> (forall a, quiet (k a)) -> quiet (bind m k).
Proof.
  intros Hm Hk w. unfold bind. specialize (Hm w).
  destruct (m w) as [[a|e|status msg|] w1]; cbn [snd] in *; trivial.
  eapply no_local_mutation_trans; [exact Hm | apply Hk].
Qed.

Lemma quiet_print (line : string) : quiet (print line).
Proof.
  intros w. unfold print. norm. unfold no_local_mutation.
  destruct w; norm. repeat split; eauto. exists []. now rewrite app_nil_r.
Qed.

Lemma quiet_new_runner : quiet Runner.new_runner.
Proof.
  intros w. unfold Runner.new_runner, no_local_mutation. norm.
  repeat split; exists []; now rewrite app_nil_r.
Qed.

Lemma quiet_download P env local_path host path :
  quiet (download_if_changed P env local_path host path).
Proof.
  intros w.
  destruct (download_run P env local_path host path w) as (lines & events & -> & _).
  unfold no_local_mutation. norm. repeat split; eauto.
Qed.

Lemma quiet_resolve_sources P env args : quiet (resolve_sources P env args).
Proof.
  unfold resolve_sources, resolve_clinvar_xml, resolve_variant_summary_table.
  apply quiet_bind; [apply quiet_new_runner | intros _].
  apply quiet_bind; [| intros xml; apply quiet_bind; [| intros table]].
  - destruct (Py.supplied (clinvar_xml args)).
    + apply quiet_of_stateless. frame.
    + apply quiet_bind; [apply quiet_print | intros _].
      apply quiet_bind; [apply quiet_download | intros _].
      apply quiet_of_stateless, stateless_ret.
  - destruct (Py.supplied (clinvar_variant_summary_table args)).
    + apply quiet_of_stateless. frame.
    + apply quiet_bind; [apply quiet_print | intros _].
      apply quiet_bind; [apply quiet_download | intros _].
      apply quiet_of_stateless, stateless_ret.
  - apply quiet_of_stateless. frame.
Qed.

(** Up to the first [jr.run()] the script changes no file and starts
    no process, however it ends. *)
Lemma configure_is_quiet P env args : quiet (configure P env args).
Proof.
  unfold configure.
  apply quiet_bind;
    [apply quiet_of_stateless, check_dependencies_stateless | intros _].
  apply quiet_bind;
    [apply quiet_of_stateless, check_inputs_stateless | intros _].
  apply quiet_resolve_sources.
Qed.

(** When configuration does not complete, the script ends there. *)
Lemma main_stops_with_configure P env args w :
  (forall sources, fst (configure P env args w) <> Ok sources) ->
  snd (main P env args w) = snd (configure P env args w)
  /\ no_local_mutation w (snd (main P env args w)).
Proof.
  intros Hstop.
  assert (Hsnd : snd (main P env args w) = snd (configure P env args w)).
  { unfold main, bind at 1.
    destruct (configure P env args w) as [[sources|e|status msg|] w1];
      cbn [fst snd] in *; trivial.
    now elim (Hstop sources). }
  split; [exact Hsnd|]. rewrite Hsnd. apply configure_is_quiet.
Qed.

(** The other input files of the command line are reported through
    [p.error]. *)
Lemma missing_reference_genome_is_reported args w :
  fs w (reference_genome args) = None ->
  check_inputs args w
  = (Exited 2 ("genome reference: file not found: " ++ reference_genome args), w).
Proof.
  intros H. unfold check_inputs.
  rewrite (bind_ok _ _ _ _ _ (isfile_run _ _)), H. cbn [is_some negb].
  erewrite bind_exited; [reflexivity|].
  fmt_eval. reflexivity.
Qed.

Lemma missing_clinvar_xml_is_reported P env args w xml :
  Py.supplied (clinvar_xml args) = Some xml ->
  fs w xml = None ->
  resolve_clinvar_xml P env args w
  = (Exited 2 ("ClinVar XML specified but not found: " ++ xml), w).
Proof.
  intros Hxml H. unfold resolve_clinvar_xml. rewrite Hxml.
  rewrite (bind_ok _ _ _ _ _ (isfile_run _ _)), H. cbn [is_some negb].
  erewrite bind_exited; [reflexivity|].
  fmt_eval. reflexivity.
Qed.

Lemma uncompressed_clinvar_xml_is_reported P env args w xml :
  Py.supplied (clinvar_xml args) = Some xml ->
  is_some (fs w xml) = true ->
  PyStr.endswith xml ".gz" = false ->
  resolve_clinvar_xml P env args w
  = (Exited 2 ("ClinVar XML expected to be gzipped: " ++ xml), w).
Proof.
  intros Hxml H Hgz. unfold resolve_clinvar_xml. rewrite Hxml.
  rewrite (bind_ok _ _ _ _ _ (isfile_run _ _)), H. cbn [negb].
  rewrite bind_ret, Hgz. cbn [negb].
  erewrite bind_exited; [reflexivity|].
  fmt_eval. reflexivity.
Qed.

Lemma missing_summary_table_is_reported P env args w table :
  Py.supplied (clinvar_variant_summary_table args) = Some table ->
  fs w table = None ->
  resolve_variant_summary_table P env args w
  = (Exited 2 ("ClinVar variant summary table specified but not found: " ++ table), w).
Proof.
  intros Htable H. unfold resolve_variant_summary_table. rewrite Htable.
  rewrite (bind_ok _ _ _ _ _ (isfile_run _ _)), H. cbn [is_some negb].
  erewrite bind_exited; [reflexivity|].
  fmt_eval. reflexivity.
Qed.

Lemma uncompressed_summary_table_is_reported P env args w table :
  Py.supplied (clinvar_variant_summary_table args) = Some table ->
  is_some (fs w table) = true ->
  PyStr.endswith table ".gz" = false ->
  resolve_variant_summary_table P env args w
  = (Exited 2 ("ClinVar variant summary table expected to be gzipped: " ++ table), w).
Proof.
  intros Htable H Hgz. unfold resolve_variant_summary_table. rewrite Htable.
  rewrite (bind_ok _ _ _ _ _ (isfile_run _ _)), H. cbn [negb].
  rewrite bind_ret, Hgz. cbn [negb].
  erewrite bind_exited; [reflexivity|].
  fmt_eval. reflexivity.
Qed.

(* ================================================================== *)
(** * The sequential job *)
(* ================================================================== *)

Lemma fmt_parse (xml assembly : string) :
  fmt "python -u IN:parse_clinvar_xml.py -x IN:%s -o OUT:clinvar_table_raw.tsv -a %s"
      [xml; assembly]
  = ret ("python -u IN:parse_clinvar_xml.py -x IN:" ++ xml
         ++ " -o OUT:clinvar_table_raw.tsv -a " ++ assembly).
Proof. fmt_eval. reflexivity. Qed.

Lemma fmt_normalize (genome xml table : string) (v : option string) :
  fmt_mapping
    "python -u normalize.py -R IN:%(reference_genome)s < IN:clinvar_table_raw.tsv > OUT:clinvar_table_normalized.tsv"
    (locals genome xml table v)
  = ret ("python -u normalize.py -R IN:" ++ genome
         ++ " < IN:clinvar_table_raw.tsv > OUT:clinvar_table_normalized.tsv").
Proof. fmt_eval. reflexivity. Qed.

Lemma fmt_join (table : string) :
  fmt "Rscript IN:join_data.R IN:%s" [table] = ret ("Rscript IN:join_data.R IN:" ++ table).
Proof. fmt_eval. reflexivity. Qed.

Lemma fmt_vt (exac genome normalized : string) :
  fmt "vt decompose -s IN:%s | vt normalize -r IN:%s - | bgzip -c > OUT:%s"
      [exac; genome; normalized]
  = ret ("vt decompose -s IN:" ++ exac ++ " | vt normalize -r IN:" ++ genome
         ++ " - | bgzip -c > OUT:" ++ normalized).
Proof. fmt_eval. reflexivity. Qed.

Lemma fmt_add_exac (genome xml table normalized : string) :
  fmt_mapping
    "python -u IN:add_exac_fields.py -i IN:clinvar.tsv -e IN:%(normalized_vcf)s | bgzip -c > OUT:clinvar_with_exac.tsv.gz"
    (locals genome xml table (Some normalized))
  = ret ("python -u IN:add_exac_fields.py -i IN:clinvar.tsv -e IN:" ++ normalized
         ++ " | bgzip -c > OUT:clinvar_with_exac.tsv.gz").
Proof. fmt_eval. reflexivity. Qed.

Lemma job_add_run (cmd : string) (inputs outputs : list string) (w : World) :
  Runner.job_add cmd inputs outputs w
  = (Ok tt, set_job (job w ++ [Pypez.describe cmd inputs outputs])%list w).
Proof. reflexivity. Qed.

Lemma job_add_set (cmd : string) (inputs outputs : list string)
      (j : Pypez.Job) (w : World) :
  Runner.job_add cmd inputs outputs (set_job j w)
  = (Ok tt, set_job (j ++ [Pypez.describe cmd inputs outputs])%list w).
Proof. destruct w. reflexivity. Qed.

Lemma new_job_run (w : World) : Runner.new_job w = (Ok tt, set_job [] w).
Proof. reflexivity. Qed.

Ltac add_steps :=
  repeat first [ rewrite bind_ret | erewrite bind_ok by apply job_add_set ];
  try rewrite job_add_set.

Lemma add_exac_steps_run args xml table j w :
  add_exac_steps args xml table (set_job j w)
  = (Ok tt, set_job (j ++ exac_steps args)%list w).
Proof.
  unfold add_exac_steps, exac_steps.
  destruct (Py.supplied (exac_sites_vcf args)) as [exac|].
  - cbv zeta. rewrite fmt_vt, fmt_add_exac, !bind_ret.
    add_steps. rewrite <- !app_assoc. cbn [app]. reflexivity.
  - now rewrite app_nil_r.
Qed.

(** The job the script builds, whatever the state it starts from. *)
Lemma build_job_run args xml table w :
  build_job args xml table w = (Ok tt, set_job (pipeline args xml table) w).
Proof.
  unfold build_job, pipeline.
  rewrite fmt_parse, fmt_normalize, fmt_join.
  erewrite bind_ok by apply new_job_run.
  rewrite !bind_ret. add_steps.
  erewrite bind_ok by apply add_exac_steps_run.
  add_steps.
  unfold main_steps, closing_steps, exac_example_step.
  rewrite <- !app_assoc. cbn [app]. reflexivity.
Qed.

(** The stages of the steps, in the order of the job. *)
Lemma stages_of_the_pipeline args xml table :
  map stage_of (pipeline args xml table)
  = map Some (stages (Py.truthy (exac_sites_vcf args))).
Proof.
  unfold pipeline, stages, exac_steps, Py.truthy, main_steps, closing_steps.
  destruct (Py.supplied (exac_sites_vcf args)) as [exac|];
    cbv zeta; cbn [map app]; repeat (f_equal; try reflexivity).
Qed.

(** C8: whatever the state it starts from, the driver leaves as
    sequential job exactly the steps of [pipeline], each with the
    command text and the explicit file lists of lines 98-151, and
    their stages are, in this order: parse the ClinVar XML, fetch and
    run the normalization script, join with the summary table, sort,
    deduplicate, index and copy the table, derive, index and copy the
    VCF, then the five ExAC steps when [-E] is given and none
    otherwise, then the three example files, the statistics summary
    and its copy. *)
Theorem job_is_the_pipeline_in_order args xml table w :
  build_job args xml table w = (Ok tt, set_job (pipeline args xml table) w)
  /\ map stage_of (pipeline args xml table)
     = map Some (stages (Py.truthy (exac_sites_vcf args)))
  /\ List.length (pipeline args xml table)
     = (if Py.truthy (exac_sites_vcf args) then 21 else 16)%nat.
Proof.
  split; [apply build_job_run|]. split; [apply stages_of_the_pipeline|].
  rewrite <- (length_map stage_of), stages_of_the_pipeline, length_map.
  now destruct (Py.truthy (exac_sites_vcf args)).
Qed.

(* ================================================================== *)
(** * Markers in command strings *)
(* ================================================================== *)

Lemma string_of_list_ascii_app (l1 l2 : list ascii) :
  string_of_list_ascii (l1 ++ l2)%list
  = string_of_list_ascii l1 ++ string_of_list_ascii l2.
Proof. induction l1 as [|c l1 IH]; simpl; [reflexivity | now rewrite IH]. Qed.

(** White space ends the word being read, whatever follows. *)
Lemma split_go_space (acc : list ascii) (s : string) (c : ascii) (t : string) :
  PyStr.is_space c = true ->
  PyStr.split_go acc (s ++ String c t)
  = (PyStr.split_go acc s ++ PyStr.split_go [] t)%list.
Proof.
  intros Hc. revert acc.
  induction s as [|d s IH]; intros acc; cbn [append PyStr.split_go].
  - now rewrite Hc.
  - destruct (PyStr.is_space d).
    + rewrite IH. now rewrite app_assoc.
    + apply IH.
Qed.










(** Under the marker rule an argument value can declare the file: an
    assembly name that is itself the marker
    [OUT:clinvar_with_exac.tsv.gz] makes the first step of the job
    declare that file as an output. *)
Lemma marker_as_assembly_declares_the_file :
  exac_sites_vcf Scenario.marker_as_assembly = None
  /\ ~ dangling_exac_example Scenario.marker_as_assembly.
Proof.
  split; [reflexivity|].
  intros (n & Hn & _ & _ & Hprev).
  unfold job_of in Hn, Hprev. rewrite build_job_run in Hn, Hprev.
  cbn [snd job set_job] in Hn, Hprev.
  destruct n as [|n].
  - vm_compute in Hn. discriminate Hn.
  - apply (Hprev (Pypez.describe
                    ("python -u IN:parse_clinvar_xml.py -x IN:"
                     ++ resolved_xml Scenario.marker_as_assembly
                     ++ " -o OUT:clinvar_table_raw.tsv -a "
                     ++ assembly Scenario.marker_as_assembly) [] [])).
    + left. reflexivity.
    + vm_compute. auto.
Qed.







(** The same table given as [./clinvar_with_exac.tsv.gz] is still that
    file: no identification of path names leaves it unrelated. *)
Lemma table_behind_dot_is_related same_file :
  path_identification same_file ->
  ~ unrelated_to same_file "clinvar_with_exac.tsv.gz"
                 Scenario.table_behind_dot_as_exac_table.
Proof.
  intros Hid [Hname _].
  assert (H : same_file "./clinvar_with_exac.tsv.gz" "clinvar_with_exac.tsv.gz" = false).
  { apply Hname. vm_compute. auto. }
  pose proof (same_file_dot _ Hid "clinvar_with_exac.tsv.gz" eq_refl) as Hdot.
  cbn [append] in Hdot. rewrite Hdot in H. discriminate H.
Qed.

(* ================================================================== *)
(** * Checks of the string layer *)
(* ================================================================== *)

Example format_two_arguments :
  PyStr.format "ftp://%s/%s" (PyStr.Positional ["h"; "/p"]) = inr "ftp://h//p".
Proof. reflexivity. Qed.

Example format_of_the_index_message :
  PyStr.format "ExAC sites vcf: tabix index not found: %{s}.tbi"
               (PyStr.Positional ["x"])
  = inl (Py.UnsupportedFormatCharacter "{"%char 40).
Proof. reflexivity. Qed.

Example normalized_vcf_name :
  PyStr.before_first ".vcf" (PyStr.basename "/data/ExAC.r0.3.sites.vep.vcf.gz")
  = "ExAC.r0.3.sites.vep".
Proof. reflexivity. Qed.

Example markers_of_the_sort_step :
  Pypez.input_filenames (Pypez.describe sort_command [] [])
  = ["clinvar_combined.tsv"; "clinvar_combined.tsv"; "clinvar_combined.tsv"]
  /\ Pypez.output_filenames (Pypez.describe sort_command [] [])
     = ["clinvar_combined_sorted.tsv"; "clinvar_combined_sorted.tsv";
        "clinvar_combined_sorted.tsv"].
Proof. split; reflexivity. Qed.

Example epoch_is_zero : Scenario.utc_mdtm "19700101000000" = inr 0%Z.
Proof. reflexivity. Qed.

Example a_day_in_2016 :
  Scenario.utc_mdtm "20160102030405" = inr 1451703845%Z
  /\ Scenario.utc_datetime 1451703845 = "2016-01-02 03:04:05".
Proof. split; reflexivity. Qed.

(* ================================================================== *)
(** * Which dependency is reported, and how *)
(* ================================================================== *)

Lemma main_exits_with_configure P env args w status msg w1 :
  configure P env args w = (Exited status msg, w1) ->
  main P env args w = (Exited status msg, w1).
Proof. intros H. unfold main. now rewrite (bind_exited _ _ _ _ _ _ H). Qed.

Lemma main_raises_with_configure P env args w e w1 :
  configure P env args w = (Raised e, w1) ->
  main P env args w = (Raised e, w1).
Proof. intros H. unfold main. now rewrite (bind_raised _ _ _ _ _ H). Qed.

(** X1: the import of [configargparse] on line 7 stands outside the
    [try]: when that module is missing the script ends in an uncaught
    [ImportError], not in the message of [sys.exit], whatever else is
    installed. *)
Theorem missing_configargparse_is_uncaught P env args w :
  importable env "configargparse" = false ->
  main P env args w = (Raised (Py.ImportError "configargparse"), w).
Proof.
  intros H. apply main_raises_with_configure. unfold configure.
  erewrite bind_raised; [reflexivity|].
  unfold check_dependencies. erewrite bind_raised; [reflexivity|].
  unfold import_. now rewrite H.
Qed.

Lemma missing_configargparse_is_uncaught_witness :
  main Scenario.utc
       (mkEnv Scenario.unreachable (fun _ => None)
              (fun name => negb (name =? "configargparse")))
       Scenario.plain Scenario.blank
  = (Raised (Py.ImportError "configargparse"), Scenario.blank).
Proof.
  apply missing_configargparse_is_uncaught. reflexivity.
Defined.

(** X2: of the modules imported inside the [try] the first one, in
    the order [pypez], [pysam], [pandas], that cannot be imported is
    the one named; the script ends through [sys.exit] with status 1,
    also when tools are missing as well. *)
Theorem first_missing_module_is_reported P env args w name :
  importable env "configargparse" = true ->
  find (fun m => negb (importable env m)) ["pypez"; "pysam"; "pandas"] = Some name ->
  main P env args w
  = (Exited 1 ("ERROR: Python module not installed. No module named " ++ name
               ++ ". Please run 'pip install -r requirements.txt' "), w).
Proof.
  intros Hcfg Hfind. apply main_exits_with_configure. unfold configure.
  erewrite bind_exited; [reflexivity|].
  unfold check_dependencies. unfold import_ at 1. rewrite Hcfg, bind_ret.
  erewrite bind_exited; [reflexivity|].
  assert (Hbody : (import_ env "pypez" ;; import_ env "pysam" ;; import_ env "pandas") w
                  = (Raised (Py.ImportError name), w)).
  { unfold import_. cbn [find] in Hfind.
    destruct (importable env "pypez"); cbn [negb] in Hfind.
    - rewrite bind_ret.
      destruct (importable env "pysam"); cbn [negb] in Hfind.
      + rewrite bind_ret.
        destruct (importable env "pandas"); cbn [negb] in Hfind.
        * discriminate.
        * now inversion Hfind.
      + now inversion Hfind.
    - now inversion Hfind. }
  erewrite try_raised by exact Hbody.
  unfold Py.str_exception. rewrite fmt_module_not_installed, bind_ret.
  reflexivity.
Qed.

Lemma first_missing_module_is_reported_witness :
  main Scenario.utc
       (mkEnv Scenario.unreachable (fun _ => None)
              (fun name => negb (name =? "pysam") && negb (name =? "pandas")))
       Scenario.plain Scenario.blank
  = (Exited 1 "ERROR: Python module not installed. No module named pysam. Please run 'pip install -r requirements.txt' ",
     Scenario.blank).
Proof.
  apply (first_missing_module_is_reported Scenario.utc
           (mkEnv Scenario.unreachable (fun _ => None)
                  (fun name => negb (name =? "pysam") && negb (name =? "pandas")))
           Scenario.plain Scenario.blank "pysam"); reflexivity.
Defined.

Lemma check_executables_first env names w name :
  find (fun t => negb (Py.truthy (find_executable env t))) names = Some name ->
  check_executables env names w
  = (Raised (Py.AssertionError ("Command " ++ name ++ " not found, see README")), w).
Proof.
  induction names as [|first names IH]; cbn [find check_executables]; intros H.
  - discriminate.
  - rewrite fmt_command_not_found, bind_ret.
    destruct (Py.truthy (find_executable env first)); cbn [negb] in H.
    + cbn [assert_]. rewrite bind_ret. apply IH, H.
    + inversion H; subst. reflexivity.
Qed.

(** X3: with every module importable, the tool named by the failed
    assertion is the first of [wget], [Rscript], [tabix], [vt] that is
    not found; the script ends in an [AssertionError] and the state of
    the world is untouched. *)
Theorem first_missing_tool_is_reported P env args w name :
  (forall m, In m required_modules -> importable env m = true) ->
  find (fun t => negb (Py.truthy (find_executable env t))) required_executables
  = Some name ->
  main P env args w
  = (Raised (Py.AssertionError ("Command " ++ name ++ " not found, see README")), w).
Proof.
  intros Hmod Hfind. apply main_raises_with_configure. unfold configure.
  erewrite bind_raised; [reflexivity|].
  unfold check_dependencies.
  unfold import_ at 1. rewrite (Hmod "configargparse"), bind_ret by (simpl; auto).
  destruct (import_block_run env w) as [(Hbody & _) | (m & Hin & Hmiss & _)].
  - erewrite bind_ok by (eapply try_ok; exact Hbody).
    apply check_executables_first, Hfind.
  - rewrite Hmod in Hmiss; [discriminate|]. simpl in *. tauto.
Qed.

Lemma first_missing_tool_is_reported_witness :
  main Scenario.utc
       (mkEnv Scenario.unreachable
              (fun name => if (name =? "wget") then Some "/usr/bin/wget" else None)
              (fun _ => true))
       Scenario.plain Scenario.blank
  = (Raised (Py.AssertionError "Command Rscript not found, see README"), Scenario.blank).
Proof.
  apply (first_missing_tool_is_reported Scenario.utc
           (mkEnv Scenario.unreachable
                  (fun name => if (name =? "wget") then Some "/usr/bin/wget" else None)
                  (fun _ => true))
           Scenario.plain Scenario.blank "Rscript"); reflexivity.
Defined.

(* ================================================================== *)
(** * Which inputs are accepted *)
(* ================================================================== *)

Lemma fmt_exac_not_found (x : string) :
  fmt "ExAC sites vcf: file not found: %s" [x]
  = ret ("ExAC sites vcf: file not found: " ++ x).
Proof. fmt_eval. reflexivity. Qed.

Lemma fmt_genome_not_found (x : string) :
  fmt "genome reference: file not found: %s" [x]
  = ret ("genome reference: file not found: " ++ x).
Proof. fmt_eval. reflexivity. Qed.

(** X4: lines 34-42 pass exactly when the reference genome exists
    and, if [-E] is given, the ExAC sites file and its [.tbi] index
    exist; they never change the state, and when they do not pass the
    script ends through [p.error] for a missing file and in the
    [ValueError] of the malformed message for a missing index. *)
Theorem check_inputs_passes_iff args w :
  (check_inputs args w = (Ok tt, w) <-> inputs_present (fs w) args = true)
  /\ (inputs_present (fs w) args = false ->
      (exists msg, check_inputs args w = (Exited 2 msg, w))
      \/ check_inputs args w
         = (Raised (Py.UnsupportedFormatCharacter "{"%char 40), w)).
Proof.
  unfold check_inputs, check_exac, inputs_present.
  rewrite (bind_ok _ _ _ _ _ (isfile_run _ _)).
  destruct (is_some (fs w (reference_genome args))); cbn [negb andb].
  2:{ rewrite fmt_genome_not_found. unfold bind, ret, parser_error.
      split; [split; discriminate | eauto]. }
  rewrite bind_ret.
  destruct (Py.supplied (exac_sites_vcf args)) as [exac|].
  2:{ split; [split; reflexivity | discriminate]. }
  rewrite (bind_ok _ _ _ _ _ (isfile_run _ _)).
  destruct (is_some (fs w exac)); cbn [negb andb].
  2:{ rewrite fmt_exac_not_found. unfold bind, ret, parser_error.
      split; [split; discriminate | eauto]. }
  rewrite bind_ret, (bind_ok _ _ _ _ _ (isfile_run _ _)).
  destruct (is_some (fs w (exac ++ ".tbi"))); cbn [negb].
  - split; [split; reflexivity | discriminate].
  - split; [split; discriminate | right; reflexivity].
Qed.

Lemma check_inputs_passes_iff_witness :
  check_inputs Scenario.plain (Scenario.with_files Scenario.unindexed_exac)
  = (Ok tt, Scenario.with_files Scenario.unindexed_exac)
  /\ check_inputs Scenario.with_exac (Scenario.with_files Scenario.unindexed_exac)
     = (Raised (Py.UnsupportedFormatCharacter "{"%char 40),
        Scenario.with_files Scenario.unindexed_exac).
Proof.
  split.
  - apply (proj1 (check_inputs_passes_iff Scenario.plain
                    (Scenario.with_files Scenario.unindexed_exac))).
    reflexivity.
  - destruct (proj2 (check_inputs_passes_iff Scenario.with_exac
                       (Scenario.with_files Scenario.unindexed_exac)) eq_refl)
      as [(msg & H) | H]; [discriminate H | exact H].
Defined.

(** X5: the reference genome is checked first: with every dependency
    in place and the genome file missing, the script ends through
    [p.error] with the message about the genome, whatever the other
    arguments are, and nothing else has happened. *)
Theorem missing_genome_is_reported_first P env args w :
  (forall name, ~ missing_dependency env name) ->
  fs w (reference_genome args) = None ->
  main P env args w
  = (Exited 2 ("genome reference: file not found: " ++ reference_genome args), w).
Proof.
  intros Hdeps Hgenome. apply main_exits_with_configure. unfold configure.
  rewrite (bind_ok _ _ _ _ _ (check_dependencies_present env w Hdeps)).
  erewrite bind_exited; [reflexivity|].
  apply missing_reference_genome_is_reported, Hgenome.
Qed.

Lemma missing_genome_is_reported_first_witness :
  main Scenario.utc (Scenario.installed Scenario.unreachable)
       Scenario.with_exac Scenario.blank
  = (Exited 2 "genome reference: file not found: hg19.fa", Scenario.blank).
Proof.
  apply (missing_genome_is_reported_first Scenario.utc
           (Scenario.installed Scenario.unreachable) Scenario.with_exac Scenario.blank).
  - intros name [[_ H] | [Hin H]]; [discriminate H|].
    simpl in Hin. destruct Hin as [<- | [<- | [<- | [<- | []]]]]; discriminate H.
  - reflexivity.
Defined.

(* ================================================================== *)
(** * Names that end in [.gz] *)
(* ================================================================== *)

Lemma length_append (a b : string) :
  String.length (a ++ b) = (String.length a + String.length b)%nat.
Proof. induction a as [|c a IH]; simpl; [reflexivity | now rewrite IH]. Qed.

Lemma drop_append (a b : string) : PyStr.drop (String.length a) (a ++ b) = b.
Proof. induction a as [|c a IH]; simpl; [now destruct b | exact IH]. Qed.

Lemma drop_splits (n : nat) (s : string) : exists p, s = p ++ PyStr.drop n s.
Proof.
  revert s. induction n as [|n IH]; intros s.
  - exists EmptyString. now destruct s.
  - destruct s as [|c s]; [exists EmptyString; reflexivity|].
    destruct (IH s) as (p & Hp). exists (String c p). simpl. now rewrite <- Hp.
Qed.

(** [endswith] is what its name says. *)
Lemma endswith_iff (s suffix : string) :
  PyStr.endswith s suffix = true <-> exists p, s = p ++ suffix.
Proof.
  unfold PyStr.endswith. split.
  - intros H. apply andb_prop in H. destruct H as [_ H].
    apply String.eqb_eq in H.
    destruct (drop_splits (String.length s - String.length suffix) s) as (p & Hp).
    exists p. now rewrite H in Hp.
  - intros (p & ->). rewrite length_append. apply andb_true_intro. split.
    + apply Nat.leb_le. lia.
    + replace (String.length p + String.length suffix - String.length suffix)%nat
        with (String.length p) by lia.
      rewrite drop_append. apply String.eqb_refl.
Qed.

Lemma fmt_xml_not_found (x : string) :
  fmt "ClinVar XML specified but not found: %s" [x]
  = ret ("ClinVar XML specified but not found: " ++ x).
Proof. fmt_eval. reflexivity. Qed.

Lemma fmt_xml_not_gzipped (x : string) :
  fmt "ClinVar XML expected to be gzipped: %s" [x]
  = ret ("ClinVar XML expected to be gzipped: " ++ x).
Proof. fmt_eval. reflexivity. Qed.

Lemma fmt_table_not_found (x : string) :
  fmt "ClinVar variant summary table specified but not found: %s" [x]
  = ret ("ClinVar variant summary table specified but not found: " ++ x).
Proof. fmt_eval. reflexivity. Qed.

Lemma fmt_table_not_gzipped (x : string) :
  fmt "ClinVar variant summary table expected to be gzipped: %s" [x]
  = ret ("ClinVar variant summary table expected to be gzipped: " ++ x).
Proof. fmt_eval. reflexivity. Qed.

(** X6: a file given with [-X] or [-S] is taken exactly when it
    exists and its name ends in [.gz]; it is then used under the name
    given, no query is made and nothing is queued; otherwise the script
    ends through [p.error], a missing file being reported before a
    wrong suffix. *)
Theorem given_sources_are_accepted_iff P env args w :
  (forall xml, Py.supplied (clinvar_xml args) = Some xml ->
     (resolve_clinvar_xml P env args w = (Ok xml, w)
      <-> is_some (fs w xml) = true /\ exists stem, xml = stem ++ ".gz")
     /\ (fs w xml = None ->
         resolve_clinvar_xml P env args w
         = (Exited 2 ("ClinVar XML specified but not found: " ++ xml), w)))
  /\ (forall table, Py.supplied (clinvar_variant_summary_table args) = Some table ->
     (resolve_variant_summary_table P env args w = (Ok table, w)
      <-> is_some (fs w table) = true /\ exists stem, table = stem ++ ".gz")
     /\ (fs w table = None ->
         resolve_variant_summary_table P env args w
         = (Exited 2 ("ClinVar variant summary table specified but not found: "
                      ++ table), w))).
Proof.
  split.
  - intros xml Hxml. split.
    + rewrite <- endswith_iff.
      unfold resolve_clinvar_xml. rewrite Hxml.
      rewrite (bind_ok _ _ _ _ _ (isfile_run _ _)).
      destruct (is_some (fs w xml)); cbn [negb].
      * rewrite bind_ret. destruct (PyStr.endswith xml ".gz"); cbn [negb].
        -- rewrite bind_ret. split; auto.
        -- rewrite fmt_xml_not_gzipped. unfold bind, ret, parser_error.
           split; [discriminate | intros [_ H]; discriminate H].
      * rewrite fmt_xml_not_found. unfold bind, ret, parser_error.
        split; [discriminate | intros [H _]; discriminate H].
    + apply missing_clinvar_xml_is_reported, Hxml.
  - intros table Htable. split.
    + rewrite <- endswith_iff.
      unfold resolve_variant_summary_table. rewrite Htable.
      rewrite (bind_ok _ _ _ _ _ (isfile_run _ _)).
      destruct (is_some (fs w table)); cbn [negb].
      * rewrite bind_ret. destruct (PyStr.endswith table ".gz"); cbn [negb].
        -- rewrite bind_ret. split; auto.
        -- rewrite fmt_table_not_gzipped. unfold bind, ret, parser_error.
           split; [discriminate | intros [_ H]; discriminate H].
      * rewrite fmt_table_not_found. unfold bind, ret, parser_error.
        split; [discriminate | intros [H _]; discriminate H].
    + apply missing_summary_table_is_reported, Htable.
Qed.

Lemma given_sources_are_accepted_iff_witness :
  resolve_clinvar_xml Scenario.utc (Scenario.installed Scenario.unreachable)
                      Scenario.prefetched (Scenario.with_files Scenario.prefetched_files)
  = (Ok "ClinVar.xml.gz", Scenario.with_files Scenario.prefetched_files)
  /\ resolve_variant_summary_table Scenario.utc (Scenario.installed Scenario.unreachable)
                                   Scenario.prefetched Scenario.blank
     = (Exited 2 "ClinVar variant summary table specified but not found: summary.txt.gz",
        Scenario.blank).
Proof.
  split.
  - apply (proj1 (proj1 (given_sources_are_accepted_iff Scenario.utc
                           (Scenario.installed Scenario.unreachable)
                           Scenario.prefetched
                           (Scenario.with_files Scenario.prefetched_files))
                        "ClinVar.xml.gz" eq_refl)).
    split; [reflexivity | exists "ClinVar.xml"; reflexivity].
  - apply (proj2 (proj2 (given_sources_are_accepted_iff Scenario.utc
                           (Scenario.installed Scenario.unreachable)
                           Scenario.prefetched Scenario.blank)
                        "summary.txt.gz" eq_refl)).
    reflexivity.
Defined.

(* ================================================================== *)
(** * The dialogue with the server *)
(* ================================================================== *)

(** X7: when the server answers the connection, the login and the
    [MDTM] command, and the reply without its first four characters
    parses as a time, that time is the result; the dialogue is one
    connection with the timeout, one login and the one command
    [MDTM <path>], and one line is printed. *)
Theorem remote_time_is_read_from_the_reply P env ftp_host ftp_path w response t :
  welcome (remote env) ftp_host = Answer tt ->
  login_reply (remote env) ftp_host = Answer tt ->
  command_reply (remote env) ftp_host ("MDTM " ++ ftp_path) = Answer response ->
  mdtm_seconds P (PyStr.drop 4 response) = inr t ->
  get_remote_file_changed_time P env ftp_host ftp_path w
  = (Ok t,
     mkWorld (fs w)
             (console w ++ [("Retrieving last-changed time for "
                             ++ PyStr.path_join ftp_host ftp_path)%string])%list
             (net w ++ [Connect ftp_host (Some 3%Z); Login ftp_host;
                        SendCmd ftp_host ("MDTM " ++ ftp_path)%string])%list
             (spawned w) (jr w) (job w)).
Proof.
  intros Hwelcome Hlogin Hcommand Hparse.
  unfold get_remote_file_changed_time. rewrite fmt_retrieving, bind_ret.
  unfold bind at 1, print, try_except, query_mdtm, FTP_open, FTP_login,
    FTP_sendcmd, log_net, await, bind, ret, raise.
  norm. rewrite Hwelcome. norm. rewrite Hlogin. norm. rewrite Hcommand. norm.
  rewrite Hparse. destruct w; norm. rewrite <- !app_assoc. reflexivity.
Qed.

Lemma remote_time_is_read_from_the_reply_witness :
  fst (get_remote_file_changed_time Scenario.utc
         (Scenario.installed (Scenario.answering "213 20160102030405"))
         Scenario.host Scenario.path Scenario.blank)
  = Ok 1451703845%Z.
Proof.
  rewrite (remote_time_is_read_from_the_reply Scenario.utc
             (Scenario.installed (Scenario.answering "213 20160102030405"))
             Scenario.host Scenario.path Scenario.blank
             "213 20160102030405" 1451703845%Z eq_refl eq_refl eq_refl eq_refl).
  reflexivity.
Defined.

(** The dialogue up to the point where it breaks. *)
Lemma query_mdtm_failure P env host path w e :
  fst (query_mdtm P env host path w) = Raised e ->
  exists events,
    query_mdtm P env host path w = (Raised e, set_net (net w ++ events) w)
    /\ (welcome (remote env) host <> Answer tt ->
        events = [Connect host (Some 3%Z)])
    /\ (welcome (remote env) host = Answer tt ->
        login_reply (remote env) host <> Answer tt ->
        events = [Connect host (Some 3%Z); Login host])
    /\ (welcome (remote env) host = Answer tt ->
        login_reply (remote env) host = Answer tt ->
        events = [Connect host (Some 3%Z); Login host;
                  SendCmd host ("MDTM " ++ path)%string]).
Proof.
  unfold query_mdtm, FTP_open, FTP_login, FTP_sendcmd, log_net, await, bind, ret, raise.
  norm.
  destruct (welcome (remote env) host) as [[]|e0|]; norm.
  - destruct (login_reply (remote env) host) as [[]|e1|]; norm.
    + destruct (command_reply (remote env) host ("MDTM " ++ path)) as [resp|e2|]; norm.
      * destruct (mdtm_seconds P (PyStr.drop 4 resp)) as [e3|t]; norm;
          intros H; inversion H; subst.
        eexists. split; [destruct w; norm; rewrite <- !app_assoc; reflexivity|].
        repeat split; intros; congruence.
      * intros H; inversion H; subst.
        eexists. split; [destruct w; norm; rewrite <- !app_assoc; reflexivity|].
        repeat split; intros; congruence.
      * intros H; inversion H; subst.
        eexists. split; [destruct w; norm; rewrite <- !app_assoc; reflexivity|].
        repeat split; intros; congruence.
    + intros H; inversion H; subst.
      eexists. split; [destruct w; norm; rewrite <- !app_assoc; reflexivity|].
      repeat split; intros; congruence.
    + intros H; inversion H; subst.
      eexists. split; [destruct w; norm; rewrite <- !app_assoc; reflexivity|].
      repeat split; intros; congruence.
  - intros H; inversion H; subst.
    eexists. split; [reflexivity|]. repeat split; intros; congruence.
  - intros H; inversion H; subst.
    eexists. split; [reflexivity|]. repeat split; intros; congruence.
Qed.

Lemma query_mdtm_result_is_global P env host path w1 w2 :
  fst (query_mdtm P env host path w1) = fst (query_mdtm P env host path w2).
Proof.
  destruct (query_mdtm_run P env host path w1) as (r & _ & _ & _ & _ & _ & H).
  now rewrite !H.
Qed.

Lemma grfct_failure_run P env ftp_host ftp_path w e :
  fst (query_mdtm P env ftp_host ftp_path w) = Raised e ->
  exists events,
    get_remote_file_changed_time P env ftp_host ftp_path w
    = (Ok 0%Z,
       mkWorld (fs w)
               (console w
                ++ [("Retrieving last-changed time for "
                     ++ PyStr.path_join ftp_host ftp_path)%string;
                    ("ERROR: retrieving last-changed time for "
                     ++ PyStr.path_join ftp_host ftp_path ++ ": "
                     ++ Py.str_exception e)%string])%list
               (net w ++ events)%list (spawned w) (jr w) (job w))
    /\ (welcome (remote env) ftp_host <> Answer tt ->
        events = [Connect ftp_host (Some 3%Z)])
    /\ (welcome (remote env) ftp_host = Answer tt ->
        login_reply (remote env) ftp_host <> Answer tt ->
        events = [Connect ftp_host (Some 3%Z); Login ftp_host]).
Proof.
  intros Hfail.
  unfold get_remote_file_changed_time. rewrite fmt_retrieving, bind_ret.
  set (line := "Retrieving last-changed time for " ++ PyStr.path_join ftp_host ftp_path).
  rewrite (query_mdtm_result_is_global P env ftp_host ftp_path w
             (set_console (console w ++ [line]) w)) in Hfail.
  destruct (query_mdtm_failure P env ftp_host ftp_path _ e Hfail)
    as (events & Hrun & Hconnect & Hlogin & _).
  exists events. split; [| split; assumption].
  unfold bind at 1, print.
  erewrite try_raised by exact Hrun.
  rewrite fmt_error_retrieving, bind_ret.
  unfold bind, print, ret. destruct w; norm. rewrite <- app_assoc. reflexivity.
Qed.

(** X8: when the query fails the function prints a second line that
    starts with [ERROR] and carries the text of the exception, and
    returns 0; the dialogue stops where it broke: no login after a
    failed connection, no [MDTM] after a failed login. *)
Theorem failed_query_is_reported_and_cut_short P env ftp_host ftp_path w e :
  fst (query_mdtm P env ftp_host ftp_path w) = Raised e ->
  exists events,
    get_remote_file_changed_time P env ftp_host ftp_path w
    = (Ok 0%Z,
       mkWorld (fs w)
               (console w
                ++ [("Retrieving last-changed time for "
                     ++ PyStr.path_join ftp_host ftp_path)%string;
                    ("ERROR: retrieving last-changed time for "
                     ++ PyStr.path_join ftp_host ftp_path ++ ": "
                     ++ Py.str_exception e)%string])%list
               (net w ++ events)%list (spawned w) (jr w) (job w))
    /\ (welcome (remote env) ftp_host <> Answer tt ->
        events = [Connect ftp_host (Some 3%Z)])
    /\ (welcome (remote env) ftp_host = Answer tt ->
        login_reply (remote env) ftp_host <> Answer tt ->
        events = [Connect ftp_host (Some 3%Z); Login ftp_host]).
Proof. apply grfct_failure_run. Qed.

Lemma failed_query_is_reported_and_cut_short_witness :
  console (snd (get_remote_file_changed_time Scenario.utc
                  (Scenario.installed Scenario.unreachable)
                  Scenario.host Scenario.path Scenario.blank))
  = ["Retrieving last-changed time for /pub/clinvar/tab_delimited/variant_summary.txt.gz";
     "ERROR: retrieving last-changed time for /pub/clinvar/tab_delimited/variant_summary.txt.gz: timed out"].
Proof.
  destruct (failed_query_is_reported_and_cut_short Scenario.utc
              (Scenario.installed Scenario.unreachable)
              Scenario.host Scenario.path Scenario.blank
              (Py.NetworkError "timed out") eq_refl)
    as (events & Hrun & _).
  rewrite Hrun. reflexivity.
Defined.

(** X9: when the query fails and the local file is absent (or not
    older than the epoch), [download_if_changed] still ends normally,
    queues nothing, and after the error line prints that the local
    copy is up to date and that the remote version has not changed
    since the epoch. *)
Theorem failed_query_reads_as_up_to_date P env local_path ftp_host ftp_path w e :
  fst (query_mdtm P env ftp_host ftp_path w) = Raised e ->
  (0 <= local_effective_time (fs w) local_path)%Q ->
  exists events,
    download_if_changed P env local_path ftp_host ftp_path w
    = (Ok tt,
       mkWorld (fs w)
               (console w
                ++ [("Retrieving last-changed time for "
                     ++ PyStr.path_join ftp_host ftp_path)%string;
                    ("ERROR: retrieving last-changed time for "
                     ++ PyStr.path_join ftp_host ftp_path ++ ": "
                     ++ Py.str_exception e)%string;
                    ("Local copy of " ++ ("ftp://" ++ ftp_host ++ "/" ++ ftp_path)
                     ++ " is up to date. The remote version hasn't changed since "
                     ++ str_datetime P 0)%string])%list
               (net w ++ events)%list (spawned w) (jr w) (job w)).
Proof.
  intros Hfail Hlocal.
  destruct (grfct_failure_run P env ftp_host ftp_path w e Hfail)
    as (events & Hrun & _).
  exists events. unfold download_if_changed.
  rewrite (bind_ok _ _ _ _ _ Hrun).
  rewrite (bind_ok _ _ _ _ _ (isfile_run _ _)). norm.
  unfold local_effective_time in Hlocal.
  destruct (fs w local_path) as [mtime|] eqn:Hfile; norm.
  - erewrite bind_ok by (apply getmtime_some; exact Hfile).
    rewrite fmt_ftp_address, bind_ret.
    replace (Qgtb (inject_Z 0) mtime) with false
      by (symmetry; apply Qgtb_le; exact Hlocal).
    rewrite fmt_up_to_date, bind_ret. unfold print. norm.
    rewrite <- app_assoc. reflexivity.
  - rewrite bind_ret, fmt_ftp_address, bind_ret.
    replace (Qgtb (inject_Z 0) 0) with false by reflexivity.
    rewrite fmt_up_to_date, bind_ret. unfold print. norm.
    rewrite <- app_assoc. reflexivity.
Qed.

Lemma failed_query_reads_as_up_to_date_witness :
  console (snd (download_if_changed Scenario.utc
                  (Scenario.installed Scenario.unreachable)
                  "data.gz" Scenario.host Scenario.path Scenario.blank))
  = ["Retrieving last-changed time for /pub/clinvar/tab_delimited/variant_summary.txt.gz";
     "ERROR: retrieving last-changed time for /pub/clinvar/tab_delimited/variant_summary.txt.gz: timed out";
     "Local copy of ftp://ftp.ncbi.nlm.nih.gov//pub/clinvar/tab_delimited/variant_summary.txt.gz is up to date. The remote version hasn't changed since 1970-01-01 00:00:00"].
Proof.
  destruct (failed_query_reads_as_up_to_date Scenario.utc
              (Scenario.installed Scenario.unreachable)
              "data.gz" Scenario.host Scenario.path Scenario.blank
              (Py.NetworkError "timed out") eq_refl)
    as (events & Hrun).
  - unfold Qle. simpl. lia.
  - rewrite Hrun. reflexivity.
Defined.

(* ================================================================== *)
(** * Absolute remote paths *)
(* ================================================================== *)

Lemma prefix_empty (s : string) : String.prefix EmptyString s = true.
Proof. now destruct s. Qed.

(** [os.path.join] forgets the host in front of an absolute path. *)
Lemma path_join_absolute (host rest : string) :
  PyStr.path_join host ("/" ++ rest) = "/" ++ rest.
Proof.
  unfold PyStr.path_join, PyStr.startswith. simpl String.prefix.
  destruct (ascii_dec "/" "/") as [_ | H]; [| now elim H].
  now rewrite prefix_empty.
Qed.

Lemma grfct_first_line P env host path w :
  exists more,
    console (snd (get_remote_file_changed_time P env host path w))
    = (console w
       ++ ("Retrieving last-changed time for " ++ PyStr.path_join host path)%string
       :: more)%list.
Proof.
  destruct (query_mdtm_run P env host path w) as (r & _ & _ & Hr & _ & _ & Hany).
  destruct r as [t|e| |]; try contradiction.
  - unfold get_remote_file_changed_time. rewrite fmt_retrieving, bind_ret.
    set (line := "Retrieving last-changed time for " ++ PyStr.path_join host path).
    destruct (query_mdtm_run P env host path (set_console (console w ++ [line]) w))
      as (r' & events & Hq & _ & _ & _ & Hany').
    assert (r' = Ok t) as -> by (rewrite <- (Hany' w); apply Hany).
    unfold bind at 1, print. erewrite try_ok by exact Hq.
    exists []. destruct w; reflexivity.
  - destruct (grfct_failure_run P env host path w e (Hany w)) as (events & -> & _).
    eexists. norm. reflexivity.
Qed.

Lemma download_first_line P env local_path host path w :
  exists more,
    console (snd (download_if_changed P env local_path host path w))
    = (console w
       ++ ("Retrieving last-changed time for " ++ PyStr.path_join host path)%string
       :: more)%list.
Proof.
  destruct (grfct_first_line P env host path w) as (more & Hfirst).
  destruct (grfct_run P env host path w) as (t & lines & events & Hrun & _).
  rewrite Hrun in Hfirst. cbn [snd console] in Hfirst.
  apply app_inv_head in Hfirst. subst lines.
  unfold download_if_changed.
  rewrite (bind_ok _ _ _ _ _ Hrun).
  rewrite (bind_ok _ _ _ _ _ (isfile_run _ _)). norm.
  destruct (fs w local_path) as [mtime|] eqn:Hfile; norm.
  - erewrite bind_ok by (apply getmtime_some; exact Hfile).
    rewrite fmt_ftp_address, bind_ret.
    destruct (Qgtb (inject_Z t) mtime).
    + rewrite fmt_wget, bind_ret. exists more. reflexivity.
    + rewrite fmt_up_to_date, bind_ret. unfold print. norm.
      eexists. rewrite <- app_assoc. reflexivity.
  - rewrite bind_ret, fmt_ftp_address, bind_ret.
    destruct (Qgtb (inject_Z t) 0).
    + rewrite fmt_wget, bind_ret. exists more. reflexivity.
    + rewrite fmt_up_to_date, bind_ret. unfold print. norm.
      eexists. rewrite <- app_assoc. reflexivity.
Qed.

(** X10: for a remote path that begins with a slash, as both paths of
    the script do, the line that announces the query shows the path
    without the host, and the address of a queued download has two
    slashes after the host. *)
Theorem absolute_path_in_messages P env local_path ftp_host rest w :
  let w' := snd (download_if_changed P env local_path ftp_host ("/" ++ rest) w) in
  (exists more,
      console w' = (console w
                    ++ ("Retrieving last-changed time for /" ++ rest)%string
                    :: more)%list)
  /\ (jr w' = jr w
      \/ jr w' = (jr w ++ [[Pypez.describe
                              ("wget ftp://" ++ ftp_host ++ "//" ++ rest
                               ++ " -O OUT:" ++ local_path) [] []]])%list).
Proof.
  intros w'. split.
  - destruct (download_first_line P env local_path ftp_host ("/" ++ rest) w)
      as (more & H).
    exists more. rewrite path_join_absolute in H. exact H.
  - destruct (download_run P env local_path ftp_host ("/" ++ rest) w)
      as (lines & events & Hrun & _).
    unfold w'. rewrite Hrun. norm.
    destruct (Qgtb _ _); [right | left]; reflexivity.
Qed.

(* ================================================================== *)
(** * The queue of downloads *)
(* ================================================================== *)

Lemma remote_changed_time_is_global P env host path w1 w2 :
  remote_changed_time P env host path w1 = remote_changed_time P env host path w2.
Proof.
  unfold remote_changed_time.
  destruct (grfct_run P env host path w1) as (t1 & l1 & e1 & H1 & _ & Hok1 & Hfail1 & _).
  destruct (grfct_run P env host path w2) as (t2 & l2 & e2 & H2 & _ & Hok2 & Hfail2 & _).
  rewrite H1, H2. cbn [fst].
  destruct (query_mdtm_run P env host path w1) as (r & _ & _ & Hr & _ & _ & Hany).
  destruct r as [t|e| |]; try contradiction.
  - rewrite (Hok1 t (Hany w1)), (Hok2 t (Hany w2)). reflexivity.
  - rewrite (Hfail1 e (Hany w1)), (Hfail2 e (Hany w2)). reflexivity.
Qed.

Lemma new_runner_run (w : World) : Runner.new_runner w = (Ok tt, set_jr [] w).
Proof. reflexivity. Qed.

Lemma print_run (line : string) (w : World) :
  print line w = (Ok tt, set_console (console w ++ [line])%list w).
Proof. reflexivity. Qed.

Lemma wants_download_is_global P env (w1 w2 : World) (name host path : string) :
  fs w1 = fs w2 ->
  wants_download P env w1 name host path = wants_download P env w2 name host path.
Proof.
  intros H. unfold wants_download.
  now rewrite H, (remote_changed_time_is_global P env host path w1 w2).
Qed.

(** One of the two default branches: the announcement, the freshness
    check, and the default name. *)
Lemma default_source_run P env (name host path : string) (w w0 : World) :
  fs w = fs w0 ->
  exists lines events,
    (print "Checking for new clinvar release" ;;
     download_if_changed P env name host path ;;
     ret name) w
    = (Ok name,
       mkWorld (fs w) (console w ++ lines)%list
               (net w ++ Connect host (Some 3%Z) :: events)%list (spawned w)
               (if wants_download P env w0 name host path
                then jr w ++ [wget_job name host path] else jr w)%list
               (job w)).
Proof.
  intros Hfs.
  rewrite (bind_ok _ _ _ _ _ (print_run _ _)).
  destruct (download_run P env name host path
              (set_console (console w ++ ["Checking for new clinvar release"])%list w))
    as (lines & events & Hrun & rest & -> & _).
  rewrite (bind_ok _ _ _ _ _ Hrun). unfold ret.
  rewrite <- (wants_download_is_global P env
                (set_console (console w ++ ["Checking for new clinvar release"])%list w)
                w0 name host path) by exact Hfs.
  unfold wants_download. norm.
  exists ("Checking for new clinvar release" :: lines), rest.
  rewrite <- app_assoc. reflexivity.
Qed.

(** X11: when neither [-X] nor [-S] is given, resolving the sources
    always completes with the two default names, asks the server about
    both files, and leaves on the queue the download of the XML (if the
    comparison of line 63 asks for it) followed by the download of the
    summary table (likewise): at most two jobs, in this order.  No file
    changes and no process is started. *)
Theorem default_sources_queue P env args w :
  Py.truthy (clinvar_xml args) = false ->
  Py.truthy (clinvar_variant_summary_table args) = false ->
  exists w',
    resolve_sources P env args w
    = (Ok ("ClinVarFullRelease_00-latest.xml.gz", "variant_summary.txt.gz"), w')
    /\ jr w'
       = ((if wants_download P env w "ClinVarFullRelease_00-latest.xml.gz"
                             "ftp.ncbi.nlm.nih.gov"
                             "/pub/clinvar/xml/ClinVarFullRelease_00-latest.xml.gz"
           then [wget_job "ClinVarFullRelease_00-latest.xml.gz"
                          "ftp.ncbi.nlm.nih.gov"
                          "/pub/clinvar/xml/ClinVarFullRelease_00-latest.xml.gz"]
           else [])
          ++ (if wants_download P env w "variant_summary.txt.gz"
                                "ftp.ncbi.nlm.nih.gov"
                                "/pub/clinvar/tab_delimited/variant_summary.txt.gz"
              then [wget_job "variant_summary.txt.gz" "ftp.ncbi.nlm.nih.gov"
                             "/pub/clinvar/tab_delimited/variant_summary.txt.gz"]
              else []))%list
    /\ fs w' = fs w /\ spawned w' = spawned w /\ job w' = job w.
Proof.
  unfold Py.truthy. intros Hxml Htable.
  destruct (Py.supplied (clinvar_xml args)) eqn:Ex; [discriminate|].
  destruct (Py.supplied (clinvar_variant_summary_table args)) eqn:Et; [discriminate|].
  unfold resolve_sources, resolve_clinvar_xml, resolve_variant_summary_table.
  rewrite Ex, Et.
  rewrite (bind_ok _ _ _ _ _ (new_runner_run w)).
  destruct (default_source_run P env "ClinVarFullRelease_00-latest.xml.gz"
              "ftp.ncbi.nlm.nih.gov"
              "/pub/clinvar/xml/ClinVarFullRelease_00-latest.xml.gz" (set_jr [] w) w
              eq_refl)
    as (l1 & e1 & H1).
  rewrite (bind_ok _ _ _ _ _ H1).
  match goal with
  | |- context [bind _ _ ?w1] =>
      destruct (default_source_run P env "variant_summary.txt.gz"
                  "ftp.ncbi.nlm.nih.gov"
                  "/pub/clinvar/tab_delimited/variant_summary.txt.gz" w1 w eq_refl)
        as (l2 & e2 & H2)
  end.
  rewrite (bind_ok _ _ _ _ _ H2). unfold ret.
  eexists. split; [reflexivity|]. norm.
  repeat split.
  destruct (wants_download _ _ _ _ _ _); destruct (wants_download _ _ _ _ _ _);
    reflexivity.
Qed.

Lemma default_sources_queue_witness :
  jr (snd (resolve_sources Scenario.utc
             (Scenario.installed (Scenario.answering "213 20160102030405"))
             Scenario.plain Scenario.blank))
  = [wget_job "ClinVarFullRelease_00-latest.xml.gz" "ftp.ncbi.nlm.nih.gov"
              "/pub/clinvar/xml/ClinVarFullRelease_00-latest.xml.gz";
     wget_job "variant_summary.txt.gz" "ftp.ncbi.nlm.nih.gov"
              "/pub/clinvar/tab_delimited/variant_summary.txt.gz"].
Proof.
  destruct (default_sources_queue Scenario.utc
              (Scenario.installed (Scenario.answering "213 20160102030405"))
              Scenario.plain Scenario.blank eq_refl eq_refl)
    as (w' & Hrun & Hjr & _).
  rewrite Hrun. cbn [snd]. rewrite Hjr. reflexivity.
Defined.

(** X12: when [-X] is not given, the file given with [-S] is looked
    at only after the server has been asked about the XML: if that
    file is missing, the script ends through [p.error] with the
    connection already in the trace; the download it may have queued
    is never started. *)
Theorem summary_table_is_checked_after_the_query P env args w table :
  Py.truthy (clinvar_xml args) = false ->
  Py.supplied (clinvar_variant_summary_table args) = Some table ->
  fs w table = None ->
  exists w' events,
    resolve_sources P env args w
    = (Exited 2 ("ClinVar variant summary table specified but not found: " ++ table), w')
    /\ net w' = (net w ++ Connect "ftp.ncbi.nlm.nih.gov" (Some 3%Z) :: events)%list
    /\ fs w' = fs w /\ spawned w' = spawned w.
Proof.
  unfold Py.truthy. intros Hxml Htable Hfile.
  destruct (Py.supplied (clinvar_xml args)) eqn:Ex; [discriminate|].
  unfold resolve_sources, resolve_clinvar_xml. rewrite Ex.
  rewrite (bind_ok _ _ _ _ _ (new_runner_run w)).
  destruct (default_source_run P env "ClinVarFullRelease_00-latest.xml.gz"
              "ftp.ncbi.nlm.nih.gov"
              "/pub/clinvar/xml/ClinVarFullRelease_00-latest.xml.gz" (set_jr [] w) w
              eq_refl)
    as (l1 & e1 & H1).
  rewrite (bind_ok _ _ _ _ _ H1).
  erewrite bind_exited;
    [| apply missing_summary_table_is_reported; [exact Htable | exact Hfile]].
  eexists. exists e1. split; [reflexivity|]. norm. auto.
Qed.

Lemma summary_table_is_checked_after_the_query_witness :
  exists w',
    resolve_sources Scenario.utc (Scenario.installed Scenario.unreachable)
                    (mkArgs "hg19.fa" "GRCh37" None None (Some "summary.txt.gz"))
                    Scenario.blank
    = (Exited 2 "ClinVar variant summary table specified but not found: summary.txt.gz", w')
    /\ net w' = [Connect "ftp.ncbi.nlm.nih.gov" (Some 3%Z)].
Proof.
  destruct (summary_table_is_checked_after_the_query Scenario.utc
              (Scenario.installed Scenario.unreachable)
              (mkArgs "hg19.fa" "GRCh37" None None (Some "summary.txt.gz"))
              Scenario.blank "summary.txt.gz" eq_refl eq_refl eq_refl)
    as (w' & events & Hrun & Hnet & _).
  exists w'. split; [exact Hrun|].
  assert (H : w' = snd (resolve_sources Scenario.utc
                          (Scenario.installed Scenario.unreachable)
                          (mkArgs "hg19.fa" "GRCh37" None None (Some "summary.txt.gz"))
                          Scenario.blank)) by now rewrite Hrun.
  rewrite H. reflexivity.
Defined.

(* ================================================================== *)
(** * Words in command strings *)
(* ================================================================== *)

Lemma split_go_spaceless (v rest : string) :
  spaceless v = true ->
  forall acc,
    PyStr.split_go acc (v ++ rest)
    = PyStr.split_go (rev (list_ascii_of_string v) ++ acc)%list rest.
Proof.
  induction v as [|c v IH]; intros Hv acc; cbn [append list_ascii_of_string rev app].
  - reflexivity.
  - cbn [spaceless] in Hv. apply andb_prop in Hv. destruct Hv as [Hc Hv].
    apply negb_true_iff in Hc. cbn [PyStr.split_go]. rewrite Hc.
    rewrite (IH Hv). now rewrite <- app_assoc.
Qed.

Lemma pending_word (v : string) (a : ascii) (acc : list ascii) :
  string_of_list_ascii (rev (rev (list_ascii_of_string v) ++ a :: acc)%list)
  = string_of_list_ascii (rev (a :: acc)) ++ v.
Proof.
  rewrite rev_app_distr, rev_involutive, string_of_list_ascii_app.
  now rewrite string_of_list_ascii_of_string.
Qed.

Lemma flush_pending (l : list ascii) (a : ascii) (acc : list ascii) :
  PyStr.flush (l ++ a :: acc)%list
  = [string_of_list_ascii (rev (l ++ a :: acc)%list)].
Proof. now destruct l. Qed.

(** A value without white space that follows pending characters
    makes one token with them. *)
Lemma glued_word (v : string) (a : ascii) (acc : list ascii) (c : ascii) (rest : string) :
  spaceless v = true -> PyStr.is_space c = true ->
  PyStr.split_go (a :: acc) (v ++ String c rest)
  = (string_of_list_ascii (rev (a :: acc)) ++ v) :: PyStr.split_go [] rest.
Proof.
  intros Hv Hc. rewrite (split_go_spaceless v _ Hv).
  cbn [PyStr.split_go]. rewrite Hc, flush_pending, pending_word. reflexivity.
Qed.

Lemma glued_last_word (v : string) (a : ascii) (acc : list ascii) :
  spaceless v = true ->
  PyStr.split_go (a :: acc) v = [string_of_list_ascii (rev (a :: acc)) ++ v].
Proof.
  intros Hv. rewrite <- (append_empty_r v) at 1.
  rewrite (split_go_spaceless v _ Hv).
  cbn [PyStr.split_go]. now rewrite flush_pending, pending_word.
Qed.

Lemma free_word (v : string) :
  spaceless v = true ->
  PyStr.split v = match v with EmptyString => [] | _ => [v] end.
Proof.
  intros Hv. unfold PyStr.split. destruct v as [|c v]; [reflexivity|].
  cbn [spaceless] in Hv. apply andb_prop in Hv. destruct Hv as [Hc Hv].
  apply negb_true_iff in Hc. cbn [PyStr.split_go]. rewrite Hc.
  rewrite (glued_last_word v c [] Hv). reflexivity.
Qed.

(** An unmarked word declares nothing. *)
Lemma marked_free_word (m v : string) :
  spaceless v = true -> PyStr.startswith v m = false ->
  Pypez.marked m (PyStr.split v) = [].
Proof.
  intros Hv Hm. rewrite (free_word v Hv). destruct v; [reflexivity|].
  unfold Pypez.marked. cbn [filter]. now rewrite Hm.
Qed.

Lemma marked_app (m : string) (l1 l2 : list string) :
  Pypez.marked m (l1 ++ l2)%list = (Pypez.marked m l1 ++ Pypez.marked m l2)%list.
Proof. unfold Pypez.marked. now rewrite filter_app, map_app. Qed.

Lemma marked_cons (m t : string) (l : list string) :
  Pypez.marked m (t :: l)
  = ((if PyStr.startswith t m then [PyStr.drop (String.length m) t] else [])
     ++ Pypez.marked m l)%list.
Proof. unfold Pypez.marked. cbn [filter]. now destruct (PyStr.startswith t m). Qed.

Lemma marked_nil (m : string) : Pypez.marked m [] = [].
Proof. reflexivity. Qed.

Lemma tokens_of_parse_step (xml assembly : string) :
  spaceless xml = true ->
  PyStr.split ("python -u IN:parse_clinvar_xml.py -x IN:" ++ xml
               ++ " -o OUT:clinvar_table_raw.tsv -a " ++ assembly)
  = (["python"; "-u"; "IN:parse_clinvar_xml.py"; "-x"; ("IN:" ++ xml)%string; "-o";
      "OUT:clinvar_table_raw.tsv"; "-a"] ++ PyStr.split assembly)%list.
Proof.
  intros Hxml. unfold PyStr.split. simpl.
  rewrite (glued_word xml) by first [assumption | reflexivity].
  simpl. reflexivity.
Qed.

Lemma tokens_of_normalize_step (genome : string) :
  spaceless genome = true ->
  PyStr.split ("python -u normalize.py -R IN:" ++ genome
               ++ " < IN:clinvar_table_raw.tsv > OUT:clinvar_table_normalized.tsv")
  = ["python"; "-u"; "normalize.py"; "-R"; ("IN:" ++ genome)%string; "<";
     "IN:clinvar_table_raw.tsv"; ">"; "OUT:clinvar_table_normalized.tsv"].
Proof.
  intros H. unfold PyStr.split. simpl.
  rewrite (glued_word genome) by first [assumption | reflexivity].
  simpl. reflexivity.
Qed.

Lemma tokens_of_join_step (table : string) :
  spaceless table = true ->
  PyStr.split ("Rscript IN:join_data.R IN:" ++ table)
  = ["Rscript"; "IN:join_data.R"; ("IN:" ++ table)%string].
Proof.
  intros H. unfold PyStr.split. simpl.
  rewrite (glued_last_word table) by assumption. reflexivity.
Qed.

Lemma tokens_of_vt_step (exac genome normalized : string) :
  spaceless exac = true -> spaceless genome = true -> spaceless normalized = true ->
  PyStr.split ("vt decompose -s IN:" ++ exac ++ " | vt normalize -r IN:" ++ genome
               ++ " - | bgzip -c > OUT:" ++ normalized)
  = ["vt"; "decompose"; "-s"; ("IN:" ++ exac)%string; "|"; "vt"; "normalize"; "-r";
     ("IN:" ++ genome)%string; "-"; "|"; "bgzip"; "-c"; ">";
     ("OUT:" ++ normalized)%string].
Proof.
  intros He Hg Hn. unfold PyStr.split. simpl.
  rewrite (glued_word exac) by first [assumption | reflexivity]. simpl.
  rewrite (glued_word genome) by first [assumption | reflexivity]. simpl.
  rewrite (glued_last_word normalized) by assumption. reflexivity.
Qed.

Lemma tokens_of_tabix_step (normalized : string) :
  spaceless normalized = true ->
  PyStr.split ("tabix IN:" ++ normalized) = ["tabix"; ("IN:" ++ normalized)%string].
Proof.
  intros H. unfold PyStr.split. simpl.
  rewrite (glued_last_word normalized) by assumption. reflexivity.
Qed.

Lemma tokens_of_add_exac_step (normalized : string) :
  spaceless normalized = true ->
  PyStr.split ("python -u IN:add_exac_fields.py -i IN:clinvar.tsv -e IN:" ++ normalized
               ++ " | bgzip -c > OUT:clinvar_with_exac.tsv.gz")
  = ["python"; "-u"; "IN:add_exac_fields.py"; "-i"; "IN:clinvar.tsv"; "-e";
     ("IN:" ++ normalized)%string; "|"; "bgzip"; "-c"; ">";
     "OUT:clinvar_with_exac.tsv.gz"].
Proof.
  intros H. unfold PyStr.split. simpl.
  rewrite (glued_word normalized) by first [assumption | reflexivity].
  simpl. reflexivity.
Qed.

(** ** What the steps with arguments declare *)

Lemma startswith_empty (s : string) : PyStr.startswith s EmptyString = true.
Proof. apply prefix_empty. Qed.

Ltac declare_from tokens :=
  unfold declared, Pypez.describe;
  cbn [Pypez.input_filenames Pypez.output_filenames];
  rewrite tokens by assumption;
  rewrite ?marked_app, ?marked_cons, ?marked_nil;
  simpl; rewrite ?startswith_empty, ?prefix_empty; simpl.

Lemma unmarked_inv (v : string) :
  unmarked v = true ->
  PyStr.startswith v "IN:" = false /\ PyStr.startswith v "OUT:" = false.
Proof.
  unfold unmarked. intros H. apply andb_prop in H. destruct H as [H1 H2].
  apply negb_true_iff in H1, H2. auto.
Qed.

Lemma declared_by_parse_step (xml assembly : string) :
  spaceless xml = true -> spaceless assembly = true -> unmarked assembly = true ->
  declared (Pypez.describe
              ("python -u IN:parse_clinvar_xml.py -x IN:" ++ xml
               ++ " -o OUT:clinvar_table_raw.tsv -a " ++ assembly) [] [])
  = (["parse_clinvar_xml.py"; xml], ["clinvar_table_raw.tsv"]).
Proof.
  intros Hxml Ha Hu. destruct (unmarked_inv _ Hu) as [Hin Hout].
  unfold declared, Pypez.describe.
  cbn [Pypez.input_filenames Pypez.output_filenames].
  rewrite (tokens_of_parse_step xml assembly Hxml).
  rewrite !marked_app, (marked_free_word "IN:" assembly Ha Hin),
    (marked_free_word "OUT:" assembly Ha Hout).
  rewrite ?marked_cons, ?marked_nil.
  simpl. rewrite ?startswith_empty, ?prefix_empty. reflexivity.
Qed.

Lemma declared_by_normalize_step (genome : string) :
  spaceless genome = true ->
  declared (Pypez.describe
              ("python -u normalize.py -R IN:" ++ genome
               ++ " < IN:clinvar_table_raw.tsv > OUT:clinvar_table_normalized.tsv")
              [] [])
  = ([genome; "clinvar_table_raw.tsv"], ["clinvar_table_normalized.tsv"]).
Proof.
  intros H. declare_from tokens_of_normalize_step. reflexivity.
Qed.

Lemma declared_by_join_step (table : string) :
  spaceless table = true ->
  declared (Pypez.describe ("Rscript IN:join_data.R IN:" ++ table)
                           ["clinvar_table_normalized.tsv"] ["clinvar_combined.tsv"])
  = (["join_data.R"; table; "clinvar_table_normalized.tsv"], ["clinvar_combined.tsv"]).
Proof.
  intros H. declare_from tokens_of_join_step. reflexivity.
Qed.

Lemma declared_by_vt_step (exac genome normalized : string) :
  spaceless exac = true -> spaceless genome = true -> spaceless normalized = true ->
  declared (Pypez.describe
              ("vt decompose -s IN:" ++ exac ++ " | vt normalize -r IN:" ++ genome
               ++ " - | bgzip -c > OUT:" ++ normalized) [] [])
  = ([exac; genome], [normalized]).
Proof.
  intros He Hg Hn. declare_from tokens_of_vt_step. reflexivity.
Qed.

Lemma declared_by_tabix_step (normalized : string) :
  spaceless normalized = true ->
  declared (Pypez.describe ("tabix IN:" ++ normalized) [] [normalized ++ ".tbi"])
  = ([normalized], [normalized ++ ".tbi"]).
Proof.
  intros H. declare_from tokens_of_tabix_step. reflexivity.
Qed.

Lemma declared_by_add_exac_step (normalized : string) :
  spaceless normalized = true ->
  declared (Pypez.describe
              ("python -u IN:add_exac_fields.py -i IN:clinvar.tsv -e IN:" ++ normalized
               ++ " | bgzip -c > OUT:clinvar_with_exac.tsv.gz") [] [])
  = (["add_exac_fields.py"; "clinvar.tsv"; normalized], ["clinvar_with_exac.tsv.gz"]).
Proof.
  intros H. declare_from tokens_of_add_exac_step. reflexivity.
Qed.

(* ================================================================== *)
(** * The name of the normalized ExAC file *)
(* ================================================================== *)




(** What is cut off is nothing or begins with the separator. *)
Lemma before_first_splits (sep s : string) :
  exists rest,
    s = PyStr.before_first sep s ++ rest
    /\ (rest = EmptyString \/ String.prefix sep rest = true).
Proof.
  induction s as [|c s IH]; cbn [PyStr.before_first].
  - exists EmptyString. auto.
  - destruct (String.prefix sep (String c s)) eqn:Hp.
    + exists (String c s). auto.
    + destruct IH as (rest & Hs & Hrest). exists rest.
      cbn [append]. now rewrite <- Hs.
Qed.






(* ================================================================== *)
(** * What the job declares *)
(* ================================================================== *)

Lemma spaceless_append (a b : string) :
  spaceless (a ++ b) = spaceless a && spaceless b.
Proof.
  induction a as [|c a IH]; cbn [append spaceless]; [reflexivity|].
  now rewrite IH, andb_assoc.
Qed.

Lemma spaceless_basename (p : string) :
  spaceless p = true -> spaceless (PyStr.basename p) = true.
Proof.
  induction p as [|c p IH]; cbn [PyStr.basename spaceless]; [reflexivity|].
  intros H. apply andb_prop in H. destruct H as [Hc Hp].
  destruct (PyStr.has_slash p); [auto|].
  destruct (PyStr.is_slash c); [exact Hp|].
  cbn [spaceless]. now rewrite Hc, Hp.
Qed.

Lemma spaceless_before_first (sep s : string) :
  spaceless s = true -> spaceless (PyStr.before_first sep s) = true.
Proof.
  intros H. destruct (before_first_splits sep s) as (rest & Hs & _).
  rewrite Hs, spaceless_append in H. now apply andb_prop in H.
Qed.

Lemma spaceless_normalized_vcf (exac : string) :
  spaceless exac = true -> spaceless (normalized_vcf exac) = true.
Proof.
  intros H. unfold normalized_vcf. rewrite spaceless_append.
  rewrite spaceless_before_first by now apply spaceless_basename.
  reflexivity.
Qed.

Lemma job_of_is_the_pipeline args :
  job_of args = pipeline args (resolved_xml args) (resolved_table args).
Proof. unfold job_of. now rewrite build_job_run. Qed.

Lemma declarations_of_job args :
  plain_arguments args -> map declared (job_of args) = declarations args.
Proof.
  intros (Hgenome & Hassembly & Hunmarked & Hxml & Htable & Hexac).
  rewrite job_of_is_the_pipeline. unfold pipeline, declarations.
  rewrite !map_app. f_equal; [| f_equal].
  - unfold main_steps. cbn [map].
    rewrite declared_by_parse_step, declared_by_normalize_step,
      declared_by_join_step by assumption.
    repeat (f_equal; try reflexivity).
  - unfold exac_steps.
    destruct (Py.supplied (exac_sites_vcf args)) as [exac|]; [|reflexivity].
    cbv zeta. cbn [map].
    change (PyStr.before_first ".vcf" (PyStr.basename exac) ++ ".normalized.vcf.gz")
      with (normalized_vcf exac).
    assert (Hn : spaceless (normalized_vcf exac) = true)
      by (apply spaceless_normalized_vcf, Hexac; reflexivity).
    assert (He : spaceless exac = true) by (apply Hexac; reflexivity).
    rewrite declared_by_vt_step, declared_by_tabix_step, declared_by_add_exac_step
      by assumption.
    repeat (f_equal; try reflexivity).
Qed.

(** X14: when the argument values are single words (no white space,
    the assembly not beginning with a marker), the files each step of
    the job declares are those of the table [declarations]: the
    argument values appear only where the templates put them behind a
    marker, and the fetch of [normalize.py] declares nothing. *)
Theorem job_declares_the_table args :
  plain_arguments args -> map declared (job_of args) = declarations args.
Proof. apply declarations_of_job. Qed.

Lemma job_declares_the_table_witness :
  map declared (job_of Scenario.with_exac) = declarations Scenario.with_exac.
Proof.
  apply job_declares_the_table.
  repeat split; try reflexivity.
  intros exac H. inversion H. reflexivity.
Defined.

(* ================================================================== *)
(** * Where the inputs of the steps come from *)
(* ================================================================== *)








Lemma prefix_append (m f : string) : String.prefix m (m ++ f) = true.
Proof.
  induction m as [|c m IH]; cbn [append String.prefix]; [now destruct f|].
  destruct (ascii_dec c c) as [_ | H]; [exact IH | now elim H].
Qed.

Lemma in_marked (m file : string) (tokens : list string) :
  In (m ++ file) tokens -> In file (Pypez.marked m tokens).
Proof.
  intros H. unfold Pypez.marked. apply in_map_iff. exists (m ++ file).
  split; [apply drop_append|]. apply filter_In. split; [exact H|].
  apply prefix_append.
Qed.



Lemma exac_step_positions args exac :
  Py.supplied (exac_sites_vcf args) = Some exac ->
  nth_error (job_of args) 11
  = Some (Pypez.describe
            ("vt decompose -s IN:" ++ exac ++ " | vt normalize -r IN:"
             ++ reference_genome args ++ " - | bgzip -c > OUT:" ++ normalized_vcf exac)
            [] [])
  /\ nth_error (job_of args) 13
     = Some (Pypez.describe
               ("python -u IN:add_exac_fields.py -i IN:clinvar.tsv -e IN:"
                ++ normalized_vcf exac
                ++ " | bgzip -c > OUT:clinvar_with_exac.tsv.gz") [] [])
  /\ nth_error (job_of args) 18 = Some exac_example_step.
Proof.
  intros E. rewrite job_of_is_the_pipeline.
  unfold pipeline, exac_steps. rewrite E. cbv zeta.
  unfold main_steps, closing_steps, normalized_vcf. cbn [app nth_error].
  repeat split.
Qed.



Lemma add_exac_step_declares_the_table (normalized : string) :
  In "clinvar_with_exac.tsv.gz"
     (Pypez.output_filenames
        (Pypez.describe
           ("python -u IN:add_exac_fields.py -i IN:clinvar.tsv -e IN:" ++ normalized
            ++ " | bgzip -c > OUT:clinvar_with_exac.tsv.gz") [] [])).
Proof.
  cbn [Pypez.describe Pypez.output_filenames]. apply in_or_app. left.
  apply in_marked. unfold PyStr.split.
  rewrite <- append_assoc.
  rewrite (split_go_space [] _ " "%char) by reflexivity.
  apply in_or_app. right. vm_compute. auto 10.
Qed.

(** X16: with [-E], whatever the argument values are, the step of
    line 128 that adds the ExAC fields stands at position 13 of the
    job and declares [clinvar_with_exac.tsv.gz] as an output, and the
    example step of line 135 that reads this file stands at position
    18. *)
Theorem exac_table_is_made_before_its_example args exac :
  Py.supplied (exac_sites_vcf args) = Some exac ->
  nth_error (job_of args) 13
  = Some (Pypez.describe
            ("python -u IN:add_exac_fields.py -i IN:clinvar.tsv -e IN:"
             ++ normalized_vcf exac
             ++ " | bgzip -c > OUT:clinvar_with_exac.tsv.gz") [] [])
  /\ (forall c, nth_error (job_of args) 13 = Some c ->
                In "clinvar_with_exac.tsv.gz" (Pypez.output_filenames c))
  /\ nth_error (job_of args) 18 = Some exac_example_step
  /\ In "clinvar_with_exac.tsv.gz" (Pypez.input_filenames exac_example_step).
Proof.
  intros E. destruct (exac_step_positions args exac E) as (_ & Hadd & Hexample).
  split; [exact Hadd|]. split; [|split; [exact Hexample | vm_compute; auto]].
  intros c Hc. rewrite Hadd in Hc. injection Hc as <-.
  apply add_exac_step_declares_the_table.
Qed.

Lemma exac_table_is_made_before_its_example_witness :
  (forall c, nth_error (job_of Scenario.with_exac) 13 = Some c ->
             In "clinvar_with_exac.tsv.gz" (Pypez.output_filenames c))
  /\ nth_error (job_of Scenario.with_exac) 18 = Some exac_example_step.
Proof.
  destruct (exac_table_is_made_before_its_example
              Scenario.with_exac "ExAC.r0.3.sites.vep.vcf.gz" eq_refl)
    as (_ & Hout & Hexample & _).
  split; [exact Hout | exact Hexample].
Defined.



(* ================================================================== *)
(** * The script as a whole *)
(* ================================================================== *)

Lemma check_inputs_present args w :
  inputs_present (fs w) args = true -> check_inputs args w = (Ok tt, w).
Proof.
  unfold check_inputs, check_exac, inputs_present. intros H.
  apply andb_prop in H. destruct H as [Hgenome Hexac].
  rewrite (bind_ok _ _ _ _ _ (isfile_run _ _)), Hgenome. cbn [negb].
  rewrite bind_ret.
  destruct (Py.supplied (exac_sites_vcf args)) as [exac|]; [|reflexivity].
  apply andb_prop in Hexac. destruct Hexac as [Hfile Hindex].
  rewrite (bind_ok _ _ _ _ _ (isfile_run _ _)), Hfile. cbn [negb].
  rewrite bind_ret, (bind_ok _ _ _ _ _ (isfile_run _ _)), Hindex.
  reflexivity.
Qed.

Lemma given_clinvar_xml_run P env args w xml :
  Py.supplied (clinvar_xml args) = Some xml ->
  is_some (fs w xml) = true -> PyStr.endswith xml ".gz" = true ->
  resolve_clinvar_xml P env args w = (Ok xml, w).
Proof.
  intros Hxml Hfile Hgz. unfold resolve_clinvar_xml. rewrite Hxml.
  rewrite (bind_ok _ _ _ _ _ (isfile_run _ _)), Hfile, Hgz. reflexivity.
Qed.

Lemma given_summary_table_run P env args w table :
  Py.supplied (clinvar_variant_summary_table args) = Some table ->
  is_some (fs w table) = true -> PyStr.endswith table ".gz" = true ->
  resolve_variant_summary_table P env args w = (Ok table, w).
Proof.
  intros Htable Hfile Hgz. unfold resolve_variant_summary_table. rewrite Htable.
  rewrite (bind_ok _ _ _ _ _ (isfile_run _ _)), Hfile, Hgz. reflexivity.
Qed.

Lemma empty_queue_run P w : Runner.run_queue P (set_jr [] w) = (Ok tt, set_jr [] w).
Proof. destruct w. reflexivity. Qed.

(** X18: when every dependency is found, the input files of lines
    34-42 are there and both [-X] and [-S] name existing [.gz] files,
    the whole script is the sequential run of the pipeline over these
    two files: nothing is printed, asked of the server or started
    before it, and the first [jr.run()] finds an empty queue. *)
Theorem accepted_run_is_the_pipeline P env args w xml table :
  (forall name, ~ missing_dependency env name) ->
  inputs_present (fs w) args = true ->
  Py.supplied (clinvar_xml args) = Some xml ->
  Py.supplied (clinvar_variant_summary_table args) = Some table ->
  is_some (fs w xml) = true -> PyStr.endswith xml ".gz" = true ->
  is_some (fs w table) = true -> PyStr.endswith table ".gz" = true ->
  main P env args w
  = Runner.run_job P (pipeline args xml table)
                   (set_job (pipeline args xml table) (set_jr [] w)).
Proof.
  intros Hdeps Hinputs Hxml Htable Hx Hxgz Ht Htgz.
  assert (Hconf : configure P env args w = (Ok (xml, table), set_jr [] w)).
  { unfold configure.
    rewrite (bind_ok _ _ _ _ _ (check_dependencies_present env w Hdeps)).
    rewrite (bind_ok _ _ _ _ _ (check_inputs_present args w Hinputs)).
    unfold resolve_sources.
    erewrite bind_ok by reflexivity.
    erewrite bind_ok
      by (apply given_clinvar_xml_run; [exact Hxml | exact Hx | exact Hxgz]).
    erewrite bind_ok
      by (apply given_summary_table_run; [exact Htable | exact Ht | exact Htgz]).
    reflexivity. }
  unfold main. rewrite (bind_ok _ _ _ _ _ Hconf). cbn [fst snd].
  rewrite (bind_ok _ _ _ _ _ (empty_queue_run P w)).
  rewrite (bind_ok _ _ _ _ _ (build_job_run args xml table _)).
  destruct w. reflexivity.
Qed.

Lemma accepted_run_is_the_pipeline_witness :
  main Scenario.utc (Scenario.installed Scenario.unreachable) Scenario.prefetched
       (Scenario.with_files Scenario.prefetched_files)
  = Runner.run_job Scenario.utc
      (pipeline Scenario.prefetched "ClinVar.xml.gz" "summary.txt.gz")
      (set_job (pipeline Scenario.prefetched "ClinVar.xml.gz" "summary.txt.gz")
               (set_jr [] (Scenario.with_files Scenario.prefetched_files))).
Proof.
  apply accepted_run_is_the_pipeline; try reflexivity.
  intros name [[_ H] | [_ H]]; discriminate H.
Defined.

(** X19: the script fails fast.  Whatever the command line, the
    environment and the server do, up to the first [jr.run()] no file
    changes and no process is started; and when that part does not
    complete, the script ends there with the same exit or exception:
    a download it may have queued is never started and no step of the
    pipeline is run. *)
Theorem nothing_runs_before_configuration_completes P env args w :
  no_local_mutation w (snd (configure P env args w))
  /\ match configure P env args w with
     | (Ok _, _) => True
     | (Raised e, w1) =>
         main P env args w = (Raised e, w1) /\ spawned w1 = spawned w
     | (Exited status msg, w1) =>
         main P env args w = (Exited status msg, w1) /\ spawned w1 = spawned w
     | (Hung, w1) => main P env args w = (Hung, w1) /\ spawned w1 = spawned w
     end.
Proof.
  pose proof (configure_is_quiet P env args w) as Hq.
  split; [exact Hq|].
  destruct (configure P env args w) as [[sources|e|status msg|] w1] eqn:Hc;
    cbn [snd] in Hq; destruct Hq as (_ & Hs & _); [exact I | | |];
    (split; [|exact Hs]).
  - now apply main_raises_with_configure.
  - now apply main_exits_with_configure.
  - unfold main, bind. now rewrite Hc.
Qed.
